(** * PromptMaster task pane: the document scan and the copy action

    A shallow embedding of [src/taskpane/taskpane.ts].  The task pane scans a
    Word document for headings, turns the headings that start with [*] into
    buttons and those that start with [_] into labels, and copies the text
    that follows a button heading to the clipboard when the button is
    clicked.

    JavaScript strings are sequences of UTF-16 code units; the functions of
    [String.prototype] that the source calls are written out on them.  The
    Word host and the browser are an explicit [Host]; the task pane's
    mutable state (DOM, request context, objects shared by reference) is an
    explicit [World] threaded through a small state-and-exception monad. *)

From Stdlib Require Import List NArith Arith Lia Bool String Ascii Sorted.
From Stdlib Require Import DecimalString.
Import ListNotations.

Set Implicit Arguments.

(** ** JavaScript strings *)

Module JS.

(** A string value: its UTF-16 code units. *)
Definition jsstring := list N.

(** A literal of the source (all of them are ASCII). *)
Definition lit (s : string) : jsstring :=
  map N_of_ascii (list_ascii_of_string s).

(** The quotation mark, for template literals that contain one. *)
Definition dquote : jsstring := [34%N].

(** WhiteSpace and LineTerminator code points of ECMAScript, the ones
    [String.prototype.trim] strips. *)
Definition isWhiteSpace (c : N) : bool :=
  ((9 <=? c) && (c <=? 13) || (c =? 32) || (c =? 160) || (c =? 5760)
   || (8192 <=? c) && (c <=? 8202) || (c =? 8232) || (c =? 8233)
   || (c =? 8239) || (c =? 8287) || (c =? 12288) || (c =? 65279))%N.

Fixpoint trimStart (s : jsstring) : jsstring :=
  match s with
  | c :: s' => if isWhiteSpace c then trimStart s' else s
  | [] => []
  end.

Definition trimEnd (s : jsstring) : jsstring := rev (trimStart (rev s)).

(** [s.trim()] *)
Definition trim (s : jsstring) : jsstring := trimEnd (trimStart s).

(** [s.startsWith(p)] *)
Fixpoint startsWith (s p : jsstring) {struct p} : bool :=
  match p, s with
  | [], _ => true
  | _ :: _, [] => false
  | a :: p', b :: s' => (a =? b)%N && startsWith s' p'
  end.

(** [s.substring(start)]: the start index is clamped to the length. *)
Definition substring (s : jsstring) (start : nat) : jsstring := skipn start s.

(** [s.length] *)
Definition length (s : jsstring) : nat := List.length s.

(** A number inside a template literal: its decimal digits. *)
Definition ofNumber (n : nat) : jsstring :=
  lit (NilEmpty.string_of_uint (Nat.to_uint n)).

End JS.
Import JS.


(** ** The Word object model, as far as the source uses it *)

(** The argument of [getRange]. *)
Inductive RangeLocation := RStart | REnd.

(** A range proxy, named by the calls that built it.  A paragraph proxy is
    named by its position in [paragraphs.items]. *)
Inductive Range :=
| ParagraphRange (p : nat) (loc : RangeLocation)  (* items[p].getRange(loc) *)
| BodyRange (loc : RangeLocation)                 (* body.getRange(loc) *)
| ExpandTo (a b : Range).                         (* a.expandTo(b) *)

Module Paragraph.
Record t := { styleBuiltIn : jsstring; text : jsstring }.
End Paragraph.

(** What [load] queues on the request context until the next
    [context.sync()]. *)
Inductive Request :=
| LoadParagraphs           (* body.paragraphs.load("items/styleBuiltIn, items/text") *)
| LoadText (r : Range).    (* r.load("text") *)

Inductive Exception :=
| SyncRejected          (* context.sync() rejected *)
| PropertyNotLoaded     (* a proxy property read before it was loaded and synced *)
| TypeError             (* a property read on undefined *)
| ClipboardRejected.    (* navigator.clipboard.writeText rejected *)

(** The document and the environment of one run of the task pane. *)
Record Host := {
  body_paragraphs : list Paragraph.t;   (* the paragraphs of the body, in order *)
  range_text : Range -> jsstring;       (* the text a range encloses *)
  sync_resolves : nat -> bool;          (* does the n-th context.sync() resolve *)
  clipboard_resolves : jsstring -> bool (* does writeText resolve *)
}.

(** ** The objects of the task pane *)

Module PromptData.
Record t := { buttonText : jsstring; textToCopy : jsstring; _range : Range }.
Definition set_textToCopy (v : jsstring) (d : t) : t :=
  {| buttonText := buttonText d; textToCopy := v; _range := _range d |}.
End PromptData.

Inductive UIItemType := label | button.

(** [data] holds a reference to a [PromptData] object: the same object
    sits in [rangesToLoad] and is written to after the second sync. *)
Module UIItem.
Record t := { type : UIItemType; text : jsstring; data : option nat }.
End UIItem.

(** The element is [h3] or [button]; a button's [onclick] closure is the
    item it captured. *)
Inductive Element :=
| H3 (className innerText : jsstring)
| ButtonElement (className innerText : jsstring) (onclick : UIItem.t).

Inductive ConsoleEntry :=
| ConsoleLog (msg : jsstring)
| ConsoleWarn (msg : jsstring)
| ConsoleError (msg : jsstring) (error : Exception).

Module Heading.
Record t := { paragraph : nat; text : jsstring; index : nat }.
End Heading.

(** ** The state and the monad *)

Record World := {
  statusMessage : jsstring;            (* #status-message innerText *)
  container : list Element;            (* children of #button-container *)
  console : list ConsoleEntry;         (* oldest first *)
  heap : list PromptData.t;            (* promptData objects; a reference is a position *)
  queue : list Request;                (* requests pending on the context *)
  items : option (list Paragraph.t);   (* paragraphs.items, once loaded *)
  loaded : list (Range * jsstring);    (* text of the ranges loaded so far *)
  syncs : list (list Request);         (* batches sent by context.sync(), oldest first *)
  clipboard : list jsstring            (* texts written to the clipboard, oldest first *)
}.

Inductive Outcome (A : Type) :=
| Returned (a : A)
| Thrown (e : Exception).
Arguments Thrown {A} e.

Definition M (A : Type) := World -> Outcome A * World.

Definition ret {A} (a : A) : M A := fun w => (Returned a, w).

Definition bind {A B} (c : M A) (k : A -> M B) : M B :=
  fun w => match c w with
           | (Returned a, w') => k a w'
           | (Thrown e, w') => (Thrown e, w')
           end.

Definition throw {A} (e : Exception) : M A := fun w => (Thrown e, w).

(** [try { c } catch (error) { handler }] *)
Definition tryCatch {A} (c : M A) (handler : Exception -> M A) : M A :=
  fun w => match c w with
           | (Returned a, w') => (Returned a, w')
           | (Thrown e, w') => handler e w'
           end.

Definition modify (f : World -> World) : M unit := fun w => (Returned tt, f w).

Declare Scope js_scope.
Delimit Scope js_scope with js.
Notation "x <- c ;; k" := (bind c (fun x => k))
  (at level 61, c at next level, right associativity) : js_scope.
Notation "c ;; k" := (bind c (fun _ => k))
  (at level 61, right associativity) : js_scope.
Open Scope js_scope.

(** *** Field updates *)

Definition set_statusMessage (v : jsstring) (w : World) : World :=
  {| statusMessage := v; container := container w; console := console w;
     heap := heap w; queue := queue w; items := items w; loaded := loaded w;
     syncs := syncs w; clipboard := clipboard w |}.

Definition set_container (v : list Element) (w : World) : World :=
  {| statusMessage := statusMessage w; container := v; console := console w;
     heap := heap w; queue := queue w; items := items w; loaded := loaded w;
     syncs := syncs w; clipboard := clipboard w |}.

Definition set_console (v : list ConsoleEntry) (w : World) : World :=
  {| statusMessage := statusMessage w; container := container w; console := v;
     heap := heap w; queue := queue w; items := items w; loaded := loaded w;
     syncs := syncs w; clipboard := clipboard w |}.

Definition set_heap (v : list PromptData.t) (w : World) : World :=
  {| statusMessage := statusMessage w; container := container w;
     console := console w; heap := v; queue := queue w; items := items w;
     loaded := loaded w; syncs := syncs w; clipboard := clipboard w |}.

Definition set_queue (v : list Request) (w : World) : World :=
  {| statusMessage := statusMessage w; container := container w;
     console := console w; heap := heap w; queue := v; items := items w;
     loaded := loaded w; syncs := syncs w; clipboard := clipboard w |}.

Definition set_clipboard (v : list jsstring) (w : World) : World :=
  {| statusMessage := statusMessage w; container := container w;
     console := console w; heap := heap w; queue := queue w; items := items w;
     loaded := loaded w; syncs := syncs w; clipboard := v |}.

Definition set_items (v : option (list Paragraph.t)) (w : World) : World :=
  {| statusMessage := statusMessage w; container := container w;
     console := console w; heap := heap w; queue := queue w; items := v;
     loaded := loaded w; syncs := syncs w; clipboard := clipboard w |}.

Definition set_loaded (v : list (Range * jsstring)) (w : World) : World :=
  {| statusMessage := statusMessage w; container := container w;
     console := console w; heap := heap w; queue := queue w; items := items w;
     loaded := v; syncs := syncs w; clipboard := clipboard w |}.

Definition set_syncs (v : list (list Request)) (w : World) : World :=
  {| statusMessage := statusMessage w; container := container w;
     console := console w; heap := heap w; queue := queue w; items := items w;
     loaded := loaded w; syncs := v; clipboard := clipboard w |}.

(** A fresh request context, as [Word.run] hands one to its callback. *)
Definition fresh_context (w : World) : World :=
  set_queue [] (set_items None (set_loaded [] w)).

(** *** The DOM and the console *)

(** [statusMessage.innerText = v] *)
Definition setStatus (v : jsstring) : M unit := modify (set_statusMessage v).

(** [container.innerHTML = ""] *)
Definition clearContainer : M unit := modify (set_container []).

(** [container.appendChild(e)] *)
Definition appendChild (e : Element) : M unit :=
  modify (fun w => set_container (container w ++ [e]) w).

Definition consoleWrite (e : ConsoleEntry) : M unit :=
  modify (fun w => set_console (console w ++ [e]) w).

(** *** The request context *)

(** [proxy.load(...)]: queued, nothing is read yet. *)
Definition load (r : Request) : M unit :=
  modify (fun w => set_queue (queue w ++ [r]) w).

(** What the host writes into the proxies when a batch is answered. *)
Definition answer (h : Host) (w : World) (r : Request) : World :=
  match r with
  | LoadParagraphs => set_items (Some (body_paragraphs h)) w
  | LoadText rg => set_loaded (loaded w ++ [(rg, range_text h rg)]) w
  end.

(** [await context.sync()]: the pending requests leave as one batch; when
    the host answers, every proxy of the batch holds its value, otherwise
    the promise rejects. *)
Definition sync (h : Host) : M unit :=
  fun w =>
    let batch := queue w in
    let sent := set_queue [] (set_syncs (syncs w ++ [batch]) w) in
    if sync_resolves h (List.length (syncs w))
    then (Returned tt, fold_left (answer h) batch sent)
    else (Thrown SyncRejected, sent).

(** [paragraphs.items] *)
Definition getItems : M (list Paragraph.t) :=
  fun w => match items w with
           | Some ps => (Returned ps, w)
           | None => (Thrown PropertyNotLoaded, w)
           end.

Definition Range_eq_dec (a b : Range) : {a = b} + {a <> b}.
Proof. decide equality; decide equality. Defined.

Fixpoint lookupText (r : Range) (l : list (Range * jsstring)) : option jsstring :=
  match l with
  | [] => None
  | (r', t) :: l' => if Range_eq_dec r r' then Some t else lookupText r l'
  end.

(** [range.text] *)
Definition getText (r : Range) : M jsstring :=
  fun w => match lookupText r (loaded w) with
           | Some t => (Returned t, w)
           | None => (Thrown PropertyNotLoaded, w)
           end.

(** [Word.run(callback)]: the callback runs on a fresh context.  Whatever
    the runtime does by itself once the callback has returned is not part
    of the source. *)
Definition WordRun {A} (callback : M A) : M A :=
  fun w => callback (fresh_context w).

(** *** Objects shared by reference *)

(** An object literal: a new object, its reference is returned. *)
Definition alloc (d : PromptData.t) : M nat :=
  fun w => (Returned (List.length (heap w)), set_heap (heap w ++ [d]) w).

Definition deref (r : nat) : M PromptData.t :=
  fun w => match nth_error (heap w) r with
           | Some d => (Returned d, w)
           | None => (Thrown TypeError, w)
           end.

Fixpoint update {A} (l : list A) (n : nat) (f : A -> A) : list A :=
  match l, n with
  | [], _ => []
  | x :: l', 0 => f x :: l'
  | x :: l', S n' => x :: update l' n' f
  end.

(** [prompt.textToCopy = v] *)
Definition write_textToCopy (r : nat) (v : jsstring) : M unit :=
  modify (fun w => set_heap (update (heap w) r (PromptData.set_textToCopy v)) w).

(** [navigator.clipboard.writeText(t)] *)
Definition writeText (h : Host) (t : jsstring) : M unit :=
  fun w => if clipboard_resolves h t
           then (Returned tt, set_clipboard (clipboard w ++ [t]) w)
           else (Thrown ClipboardRejected, w).

(** ** The program *)

(** [copyTextToClipboard(textToCopy, buttonText)] *)
Definition copyTextToClipboard (h : Host) (textToCopy buttonText : jsstring) : M unit :=
  consoleWrite (ConsoleLog (lit "Button clicked for: " ++ dquote ++ buttonText ++ dquote)) ;;
  setStatus (lit "Copying " ++ dquote ++ buttonText ++ dquote ++ lit "...") ;;
  tryCatch
    (if JS.length textToCopy =? 0 then
       consoleWrite (ConsoleWarn (lit "Text to copy is empty. (Was it empty in the doc?)")) ;;
       setStatus (lit "Warning: No text found to copy.")
     else
       consoleWrite (ConsoleLog (lit "Text to copy (length "
                                 ++ ofNumber (JS.length textToCopy) ++ lit "): "
                                 ++ dquote ++ textToCopy ++ dquote)) ;;
       writeText h textToCopy ;;
       consoleWrite (ConsoleLog (lit "Successfully copied to clipboard.")) ;;
       setStatus (lit "Copied " ++ dquote ++ buttonText ++ dquote ++ lit " to clipboard!"))
    (fun error =>
       consoleWrite (ConsoleError (lit "Error copying to clipboard:") error) ;;
       setStatus (lit "Error! See console for details.")).

(** The click handler of a button:
    [() => copyTextToClipboard(item.data.textToCopy, item.data.buttonText)] *)
Definition onclick (h : Host) (item : UIItem.t) : M unit :=
  match UIItem.data item with
  | None => throw TypeError
  | Some r =>
      d <- deref r ;;
      copyTextToClipboard h (PromptData.textToCopy d) (PromptData.buttonText d)
  end.

(** A click on a child of the container. *)
Definition click (h : Host) (e : Element) : M unit :=
  match e with
  | H3 _ _ => ret tt
  | ButtonElement _ _ item => onclick h item
  end.

(** Step 2, the loop over [paragraphs.items]; [i] is the loop counter and
    [items] what is left from position [i] on. *)
Fixpoint findHeadings (items : list Paragraph.t) (i : nat)
                      (allHeadings : list Heading.t) : list Heading.t :=
  match items with
  | [] => allHeadings
  | p :: rest =>
      findHeadings rest (S i)
        (if startsWith (Paragraph.styleBuiltIn p) (lit "Heading")
         then allHeadings ++ [ {| Heading.paragraph := i;
                                  Heading.text := Paragraph.text p;
                                  Heading.index := i |} ]
         else allHeadings)
  end.

(** Step 3, the loop over [allHeadings]; [i] is the loop counter and [n]
    the number of iterations left. *)
Fixpoint prepare (allHeadings : list Heading.t) (n i : nat)
                 (uiItemsToCreate : list UIItem.t) (rangesToLoad : list nat)
  : M (list UIItem.t * list nat) :=
  match n with
  | 0 => ret (uiItemsToCreate, rangesToLoad)
  | S n' =>
      match nth_error allHeadings i with
      | None => throw TypeError
      | Some currentHeading =>
          let headingText := trim (Heading.text currentHeading) in
          if startsWith headingText (lit "*") then
            let nextHeading := nth_error allHeadings (i + 1) in
            let startRange := ParagraphRange (Heading.paragraph currentHeading) REnd in
            let endRange :=
              match nextHeading with
              | Some nh => ParagraphRange (Heading.paragraph nh) RStart
              | None => BodyRange REnd
              end in
            let contentRange := ExpandTo startRange endRange in
            load (LoadText contentRange) ;;
            promptData <- alloc {| PromptData.buttonText := trim (substring headingText 1);
                                   PromptData.textToCopy := [];
                                   PromptData._range := contentRange |} ;;
            prepare allHeadings n' (S i)
              (uiItemsToCreate ++
                 [ {| UIItem.type := button;
                      UIItem.text := trim (substring headingText 1);
                      UIItem.data := Some promptData |} ])
              (rangesToLoad ++ [promptData])
          else if startsWith headingText (lit "_") then
            prepare allHeadings n' (S i)
              (uiItemsToCreate ++
                 [ {| UIItem.type := label;
                      UIItem.text := trim (substring headingText 1);
                      UIItem.data := None |} ])
              rangesToLoad
          else
            prepare allHeadings n' (S i) uiItemsToCreate rangesToLoad
      end
  end.

(** Step 5, [for (const prompt of rangesToLoad)]. *)
Fixpoint retrieve (rangesToLoad : list nat) : M unit :=
  match rangesToLoad with
  | [] => ret tt
  | prompt :: rest =>
      d <- deref prompt ;;
      t <- getText (PromptData._range d) ;;
      write_textToCopy prompt (trim t) ;;
      retrieve rest
  end.

(** Step 6, [uiItemsToCreate.forEach]. *)
Fixpoint build (uiItemsToCreate : list UIItem.t) : M unit :=
  match uiItemsToCreate with
  | [] => ret tt
  | item :: rest =>
      match UIItem.type item with
      | label => appendChild (H3 (lit "ms-font-l") (UIItem.text item))
      | button => appendChild (ButtonElement (lit "ms-Button") (UIItem.text item) item)
      end ;;
      build rest
  end.

(** The callback given to [Word.run]. *)
Definition scanCallback (h : Host) : M unit :=
  load LoadParagraphs ;;
  sync h ;;
  paragraphs <- getItems ;;
  let allHeadings := findHeadings paragraphs 0 [] in
  if List.length allHeadings =? 0 then
    setStatus (lit "No headings found in this document.")
  else
    r <- prepare allHeadings (List.length allHeadings) 0 [] [] ;;
    let uiItemsToCreate := fst r in
    let rangesToLoad := snd r in
    sync h ;;
    retrieve rangesToLoad ;;
    setStatus [] ;;
    if List.length uiItemsToCreate =? 0 then
      setStatus (lit "No prompts found (use '*' or '_' in headings).")
    else
      build uiItemsToCreate.

(** [scanAndBuildUI()] *)
Definition scanAndBuildUI (h : Host) : M unit :=
  clearContainer ;;
  setStatus (lit "Scanning document...") ;;
  tryCatch
    (WordRun (scanCallback h))
    (fun error =>
       consoleWrite (ConsoleError (lit "Error in scanAndBuildUI:") error) ;;
       setStatus (lit "Error scanning document. See console.")).

(** The world before the task pane has done anything. *)
Definition initial : World :=
  {| statusMessage := []; container := []; console := []; heap := [];
     queue := []; items := None; loaded := []; syncs := []; clipboard := [] |}.

(** ** What a scan computes, written as functions of the document

    These are the terms in which the properties below describe the loops of
    [scanAndBuildUI]. *)

Definition isHeading (p : Paragraph.t) : bool :=
  startsWith (Paragraph.styleBuiltIn p) (lit "Heading").

(** The heading record made for the paragraph at position [i]. *)
Definition headingOf (ip : nat * Paragraph.t) : Heading.t :=
  {| Heading.paragraph := fst ip; Heading.text := Paragraph.text (snd ip);
     Heading.index := fst ip |}.

(** The paragraphs with their positions, counted from [i]. *)
Definition numbered {A} (i : nat) (l : list A) : list (nat * A) :=
  combine (seq i (List.length l)) l.

(** The heading-styled paragraphs, in the order of the document. *)
Definition headings (ps : list Paragraph.t) : list Heading.t :=
  map headingOf (filter (fun ip => isHeading (snd ip)) (numbered 0 ps)).

Inductive MarkerType := Button | Label | NoMarker.

Definition marker (hd : Heading.t) : MarkerType :=
  if startsWith (trim (Heading.text hd)) (lit "*") then Button
  else if startsWith (trim (Heading.text hd)) (lit "_") then Label
  else NoMarker.

(** The text shown for a heading with a marker. *)
Definition displayText (hd : Heading.t) : jsstring :=
  trim (substring (trim (Heading.text hd)) 1).

(** The range from the end of the heading at position [i] to the start of
    the heading at position [i + 1], or to the end of the body. *)
Definition contentRange (all : list Heading.t) (i : nat) (hd : Heading.t) : Range :=
  ExpandTo (ParagraphRange (Heading.paragraph hd) REnd)
           (match nth_error all (S i) with
            | Some nh => ParagraphRange (Heading.paragraph nh) RStart
            | None => BodyRange REnd
            end).

(** What step 3 prepares for one heading. *)
Inductive Stub :=
| ButtonStub (text : jsstring) (range : Range)
| LabelStub (text : jsstring).

Definition stubOf (all : list Heading.t) (ih : nat * Heading.t) : list Stub :=
  match marker (snd ih) with
  | Button => [ButtonStub (displayText (snd ih)) (contentRange all (fst ih) (snd ih))]
  | Label => [LabelStub (displayText (snd ih))]
  | NoMarker => []
  end.

(** The stubs of the headings [l], which sit at positions [i], [i + 1], ...
    of [all]. *)
Definition stubsFrom (all : list Heading.t) (i : nat) (l : list Heading.t) : list Stub :=
  flat_map (stubOf all) (numbered i l).

Definition stubs (all : list Heading.t) : list Stub := stubsFrom all 0 all.

Definition rangeOf (s : Stub) : list Range :=
  match s with ButtonStub _ r => [r] | LabelStub _ => [] end.

(** The ranges queued for loading, one for each button stub. *)
Definition rangesOf (ss : list Stub) : list Range := flat_map rangeOf ss.

Definition promptOf (s : Stub) : list PromptData.t :=
  match s with
  | ButtonStub t r => [ {| PromptData.buttonText := t; PromptData.textToCopy := [];
                           PromptData._range := r |} ]
  | LabelStub _ => []
  end.

(** The [promptData] objects created, one for each button stub. *)
Definition promptsOf (ss : list Stub) : list PromptData.t := flat_map promptOf ss.

(** The UI items created, when the next object created gets reference [ref]. *)
Fixpoint itemsOf (ss : list Stub) (ref : nat) : list UIItem.t :=
  match ss with
  | [] => []
  | ButtonStub t _ :: ss' =>
      {| UIItem.type := button; UIItem.text := t; UIItem.data := Some ref |}
      :: itemsOf ss' (S ref)
  | LabelStub t :: ss' =>
      {| UIItem.type := label; UIItem.text := t; UIItem.data := None |}
      :: itemsOf ss' ref
  end.

(** The element step 6 appends for an item. *)
Definition elementOf (item : UIItem.t) : Element :=
  match UIItem.type item with
  | label => H3 (lit "ms-font-l") (UIItem.text item)
  | button => ButtonElement (lit "ms-Button") (UIItem.text item) item
  end.

(** A [promptData] object once step 5 has written the text of its range. *)
Definition filled (h : Host) (d : PromptData.t) : PromptData.t :=
  PromptData.set_textToCopy (trim (range_text h (PromptData._range d))) d.

(** ** What the user is shown

    A label with its text, or a button with its text and with the text its
    click handler hands to [copyTextToClipboard]. *)

Inductive UIDirective :=
| LabelDirective (text : jsstring)
| ButtonDirective (text payload : jsstring).

Definition directiveIn (hp : list PromptData.t) (e : Element) : option UIDirective :=
  match e with
  | H3 _ t => Some (LabelDirective t)
  | ButtonElement _ t item =>
      match UIItem.data item with
      | Some r =>
          match nth_error hp r with
          | Some d => Some (ButtonDirective t (PromptData.textToCopy d))
          | None => None
          end
      | None => None
      end
  end.

Definition directives (w : World) : list (option UIDirective) :=
  map (directiveIn (heap w)) (container w).

(** The directive a stub ends up as. *)
Definition resolved (h : Host) (s : Stub) : UIDirective :=
  match s with
  | ButtonStub t r => ButtonDirective t (trim (range_text h r))
  | LabelStub t => LabelDirective t
  end.

(** The status messages of a scan. *)
Definition msgNoHeadings : jsstring := lit "No headings found in this document.".
Definition msgNoPrompts : jsstring := lit "No prompts found (use '*' or '_' in headings).".
Definition msgScanError : jsstring := lit "Error scanning document. See console.".
Definition msgNothingToCopy : jsstring := lit "Warning: No text found to copy.".

(** The world once step 3 has prepared the stubs [ss]: their ranges are
    queued and their [promptData] objects exist. *)
Definition prepared (ss : list Stub) (w : World) : World :=
  set_heap (heap w ++ promptsOf ss)
           (set_queue (queue w ++ map LoadText (rangesOf ss)) w).

(** ** The worlds a scan ends in *)

(** Both syncs resolved and there are headings. *)
Definition scanned (h : Host) (w : World) : World :=
  let ss := stubs (headings (body_paragraphs h)) in
  {| statusMessage := if List.length ss =? 0 then msgNoPrompts else [];
     container := map elementOf (itemsOf ss (List.length (heap w)));
     console := console w;
     heap := heap w ++ map (filled h) (promptsOf ss);
     queue := [];
     items := Some (body_paragraphs h);
     loaded := map (fun r => (r, range_text h r)) (rangesOf ss);
     syncs := syncs w ++ [[LoadParagraphs]; map LoadText (rangesOf ss)];
     clipboard := clipboard w |}.

(** The first sync resolved and there is no heading. *)
Definition withoutHeadings (h : Host) (w : World) : World :=
  {| statusMessage := msgNoHeadings;
     container := [];
     console := console w;
     heap := heap w;
     queue := [];
     items := Some (body_paragraphs h);
     loaded := [];
     syncs := syncs w ++ [[LoadParagraphs]];
     clipboard := clipboard w |}.

(** The first sync rejected. *)
Definition failedFirst (w : World) : World :=
  {| statusMessage := msgScanError;
     container := [];
     console := console w ++ [ConsoleError (lit "Error in scanAndBuildUI:") SyncRejected];
     heap := heap w;
     queue := [];
     items := None;
     loaded := [];
     syncs := syncs w ++ [[LoadParagraphs]];
     clipboard := clipboard w |}.

(** The first sync resolved, there are headings, the second sync rejected. *)
Definition failedSecond (h : Host) (w : World) : World :=
  let ss := stubs (headings (body_paragraphs h)) in
  {| statusMessage := msgScanError;
     container := [];
     console := console w ++ [ConsoleError (lit "Error in scanAndBuildUI:") SyncRejected];
     heap := heap w ++ promptsOf ss;
     queue := [];
     items := Some (body_paragraphs h);
     loaded := [];
     syncs := syncs w ++ [[LoadParagraphs]; map LoadText (rangesOf ss)];
     clipboard := clipboard w |}.

(** ** Vocabulary of the properties *)

(** The batches one scan sends: what it added to the log of syncs. *)
Definition syncsOfScan (h : Host) (w : World) : list (list Request) :=
  skipn (List.length (syncs w)) (syncs (snd (scanAndBuildUI h w))).

Definition isButton (hd : Heading.t) : bool :=
  match marker hd with Button => true | _ => false end.

Definition hasMarker (hd : Heading.t) : bool :=
  match marker hd with NoMarker => false | _ => true end.

(** Both syncs of the scan started in [w] resolve. *)
Definition serviceAnswers (h : Host) (w : World) : Prop :=
  sync_resolves h (List.length (syncs w)) = true
  /\ sync_resolves h (S (List.length (syncs w))) = true.

(** A sync the scan started in [w] makes rejects: the first, or the second
    (made when there are headings). *)
Definition serviceFails (h : Host) (w : World) : Prop :=
  sync_resolves h (List.length (syncs w)) = false
  \/ (sync_resolves h (List.length (syncs w)) = true
      /\ headings (body_paragraphs h) <> []
      /\ sync_resolves h (S (List.length (syncs w))) = false).

(** [t] is [s] without the white space at its two ends. *)
Definition isTrimOf (s t : jsstring) : Prop :=
  (exists before after,
      s = before ++ t ++ after
      /\ forallb isWhiteSpace before = true
      /\ forallb isWhiteSpace after = true)
  /\ (forall c r, t = c :: r -> isWhiteSpace c = false)
  /\ (forall c r, t = r ++ [c] -> isWhiteSpace c = false).

(** ** Hosts to run the program on *)

Definition carriageReturn : jsstring := [13%N].

(** The paragraphs strictly between positions [a] and [b], each with its
    paragraph mark. *)
Definition between (ps : list Paragraph.t) (a b : nat) : jsstring :=
  List.concat (map (fun p => Paragraph.text p ++ carriageReturn)
                   (firstn (b - S a) (skipn (S a) ps))).

(** A document whose ranges hold the paragraphs between their two ends;
    every call resolves. *)
Definition documentHost (ps : list Paragraph.t) : Host :=
  {| body_paragraphs := ps;
     range_text := fun r =>
       match r with
       | ExpandTo (ParagraphRange a REnd) (ParagraphRange b RStart) => between ps a b
       | ExpandTo (ParagraphRange a REnd) (BodyRange REnd) => between ps a (List.length ps)
       | _ => []
       end;
     sync_resolves := fun _ => true;
     clipboard_resolves := fun _ => true |}.

(** The same document behind a service whose [n]-th sync rejects. *)
Definition failingHost (ps : list Paragraph.t) (n : nat) : Host :=
  {| body_paragraphs := ps;
     range_text := range_text (documentHost ps);
     sync_resolves := fun k => negb (k =? n);
     clipboard_resolves := fun _ => true |}.

Definition para (style txt : string) : Paragraph.t :=
  {| Paragraph.styleBuiltIn := lit style; Paragraph.text := lit txt |}.

Definition exampleDocument : list Paragraph.t :=
  [ para "Heading1" "Intro"; para "Heading2" "*Explain"; para "Normal" "body text A";
    para "Heading2" "_Section"; para "Heading2" "*Summarize"; para "Normal" "body text B" ].

(** Headings with white space around the marker and the text. *)
Definition spacedDocument : list Paragraph.t :=
  [ para "Heading1" "  * Copy me  "; para "Normal" "  the text  ";
    para "Heading2" " _  Part one " ].

(** Headings that are a marker and nothing else. *)
Definition bareMarkers : list Paragraph.t :=
  [ para "Heading1" " * "; para "Normal" "text under the bare button";
    para "Heading3" "_" ].

(** ** The start of the task pane *)

Module Office.
Inductive HostType := Word | Excel | PowerPoint | Outlook | OneNote | Project | Access.
End Office.

(** The page: the world above and the click handler of [#scan-button],
    which is either unset or [scanAndBuildUI]. *)
Record Pane := {
  world : World;
  scan_button_onclick : bool
}.

(** The callback given to [Office.onReady]; [host] is [info.host], absent
    outside an Office application.  The promise of the call to
    [scanAndBuildUI] is dropped. *)
Definition onReady (h : Host) (host : option Office.HostType) (p : Pane) : Pane :=
  match host with
  | Some Office.Word =>
      {| world := snd (scanAndBuildUI h (world p)); scan_button_onclick := true |}
  | _ => p
  end.

(** A click on [#scan-button], once the scan before it has finished. *)
Definition clickScanButton (h : Host) (p : Pane) : Pane :=
  if scan_button_onclick p
  then {| world := snd (scanAndBuildUI h (world p));
          scan_button_onclick := scan_button_onclick p |}
  else p.

(** [n] clicks on [#scan-button], one after the other. *)
Fixpoint clicks (h : Host) (n : nat) (p : Pane) : Pane :=
  match n with
  | 0 => p
  | S n' => clicks h n' (clickScanButton h p)
  end.

(** ** The element of a stub

    What step 6 appends for a stub, in a heap [hp]: a heading for a label;
    for a button, a button whose item refers to an object of [hp] that
    holds the button's text and the trimmed text of its range. *)
Definition elementFor (h : Host) (hp : list PromptData.t) (s : Stub) (e : Element) : Prop :=
  match s with
  | LabelStub t => e = H3 (lit "ms-font-l") t
  | ButtonStub t r =>
      exists ref,
        e = ButtonElement (lit "ms-Button") t
              {| UIItem.type := button; UIItem.text := t; UIItem.data := Some ref |}
        /\ nth_error hp ref
           = Some {| PromptData.buttonText := t;
                     PromptData.textToCopy := trim (range_text h r);
                     PromptData._range := r |}
  end.

(** The world a scan ends in, by the answers of the service. *)
Definition afterScan (h : Host) (w : World) : World :=
  if sync_resolves h (List.length (syncs w)) then
    if List.length (headings (body_paragraphs h)) =? 0 then withoutHeadings h w
    else if sync_resolves h (S (List.length (syncs w))) then scanned h w
         else failedSecond h w
  else failedFirst w.

(** The status messages of the copy action. *)
Definition msgCopied (buttonText : jsstring) : jsstring :=
  lit "Copied " ++ dquote ++ buttonText ++ dquote ++ lit " to clipboard!".
Definition msgCopyError : jsstring := lit "Error! See console for details.".

(** A host whose document is [ps] and whose clipboard refuses every write. *)
Definition lockedClipboardHost (ps : list Paragraph.t) : Host :=
  {| body_paragraphs := ps;
     range_text := range_text (documentHost ps);
     sync_resolves := fun _ => true;
     clipboard_resolves := fun _ => false |}.

(** * Properties *)

(** ** Strings *)

Lemma trimStart_split (s : jsstring) :
  exists ws, s = ws ++ trimStart s /\ forallb isWhiteSpace ws = true.
Proof.
  induction s as [|c s IH]; simpl.
  - exists []. auto.
  - destruct (isWhiteSpace c) eqn:E.
    + destruct IH as [ws [H1 H2]]. exists (c :: ws). simpl.
      rewrite E, H2. split; [f_equal; exact H1 | reflexivity].
    + exists []. auto.
Qed.

Lemma trimStart_head (s : jsstring) (c : N) (r : jsstring) :
  trimStart s = c :: r -> isWhiteSpace c = false.
Proof.
  induction s as [|d s IH]; simpl; [discriminate|].
  destruct (isWhiteSpace d) eqn:E; [exact IH|].
  intros H. inversion H. subst. exact E.
Qed.

Lemma forallb_rev (f : N -> bool) (l : jsstring) :
  forallb f l = true -> forallb f (rev l) = true.
Proof.
  rewrite !forallb_forall. intros H x Hx. apply H. apply in_rev. exact Hx.
Qed.

Lemma trimEnd_split (s : jsstring) :
  exists ws, s = trimEnd s ++ ws /\ forallb isWhiteSpace ws = true.
Proof.
  destruct (trimStart_split (rev s)) as [ws [H1 H2]].
  exists (rev ws). split.
  - unfold trimEnd. rewrite <- rev_app_distr, <- H1, rev_involutive. reflexivity.
  - apply forallb_rev. exact H2.
Qed.

Lemma trimEnd_last (s r : jsstring) (c : N) :
  trimEnd s = r ++ [c] -> isWhiteSpace c = false.
Proof.
  unfold trimEnd. intros H.
  apply (f_equal (@rev N)) in H. rewrite rev_involutive, rev_app_distr in H.
  simpl in H. exact (trimStart_head _ H).
Qed.

(** [trim] removes white space at both ends and nothing else. *)
Lemma trim_split (s : jsstring) :
  exists before after,
    s = before ++ trim s ++ after
    /\ forallb isWhiteSpace before = true
    /\ forallb isWhiteSpace after = true.
Proof.
  destruct (trimStart_split s) as [a [Ha1 Ha2]].
  destruct (trimEnd_split (trimStart s)) as [b [Hb1 Hb2]].
  exists a, b. unfold trim. rewrite <- Hb1. auto.
Qed.

Lemma trim_first (s r : jsstring) (c : N) :
  trim s = c :: r -> isWhiteSpace c = false.
Proof.
  unfold trim. intros H.
  destruct (trimEnd_split (trimStart s)) as [b [Hb _]].
  rewrite H in Hb. simpl in Hb. exact (trimStart_head _ Hb).
Qed.

Lemma trim_last (s r : jsstring) (c : N) :
  trim s = r ++ [c] -> isWhiteSpace c = false.
Proof. unfold trim. apply trimEnd_last. Qed.

(** ** Step 2: the headings *)

Lemma numbered_cons {A} (i : nat) (x : A) (l : list A) :
  numbered i (x :: l) = (i, x) :: numbered (S i) l.
Proof. reflexivity. Qed.

Lemma findHeadings_acc (ps : list Paragraph.t) :
  forall i acc,
    findHeadings ps i acc
    = acc ++ map headingOf (filter (fun ip => isHeading (snd ip)) (numbered i ps)).
Proof.
  induction ps as [|p ps IH]; intros i acc.
  - simpl. rewrite app_nil_r. reflexivity.
  - rewrite numbered_cons. cbn [findHeadings filter snd]. rewrite IH.
    change (isHeading p) with (startsWith (Paragraph.styleBuiltIn p) (lit "Heading")).
    destruct (startsWith (Paragraph.styleBuiltIn p) (lit "Heading")).
    + cbn [map app headingOf fst snd]. rewrite <- app_assoc. reflexivity.
    + reflexivity.
Qed.

Lemma findHeadings_headings (ps : list Paragraph.t) :
  findHeadings ps 0 [] = headings ps.
Proof. rewrite findHeadings_acc. reflexivity. Qed.

(** ** Step 3: the stubs *)

Lemma nth_error_skipn_cons {A} (l : list A) :
  forall i x, nth_error l i = Some x -> skipn i l = x :: skipn (S i) l.
Proof.
  induction l as [|y l IH]; intros [|i] x H; simpl in H; try discriminate.
  - inversion H. reflexivity.
  - simpl. rewrite (IH _ _ H). reflexivity.
Qed.

Lemma stubsFrom_cons (all : list Heading.t) (i : nat) (hd : Heading.t) (l : list Heading.t) :
  stubsFrom all i (hd :: l) = stubOf all (i, hd) ++ stubsFrom all (S i) l.
Proof. reflexivity. Qed.

Lemma prepared_nil (w : World) : prepared [] w = w.
Proof.
  destruct w. unfold prepared, set_heap, set_queue. simpl.
  rewrite !app_nil_r. reflexivity.
Qed.

Lemma prepare_spec (all : list Heading.t) :
  forall n i ui rl w,
    i + n = List.length all ->
    prepare all n i ui rl w
    = (Returned (ui ++ itemsOf (stubsFrom all i (skipn i all)) (List.length (heap w)),
                 rl ++ seq (List.length (heap w))
                           (List.length (promptsOf (stubsFrom all i (skipn i all))))),
       prepared (stubsFrom all i (skipn i all)) w).
Proof.
  induction n as [|n IH]; intros i ui rl w Hlen.
  - rewrite Nat.add_0_r in Hlen. subst i. rewrite skipn_all. simpl.
    unfold ret. rewrite !app_nil_r, prepared_nil. reflexivity.
  - assert (Hi : i < List.length all) by lia.
    destruct (nth_error all i) as [hd|] eqn:Hnth;
      [|apply nth_error_None in Hnth; lia].
    cbn [prepare]. rewrite Hnth.
    rewrite (nth_error_skipn_cons _ _ Hnth), stubsFrom_cons.
    unfold stubOf, marker, displayText, contentRange. cbn [fst snd].
    rewrite Nat.add_1_r.
    destruct (startsWith (trim (Heading.text hd)) (lit "*")).
    + unfold bind, load, alloc, modify.
      rewrite IH by lia.
      destruct w. unfold prepared, set_heap, set_queue. cbn.
      rewrite !length_app. cbn. rewrite !Nat.add_1_r.
      rewrite <- !app_assoc. reflexivity.
    + destruct (startsWith (trim (Heading.text hd)) (lit "_")).
      * rewrite IH by lia. cbn. rewrite <- !app_assoc. reflexivity.
      * rewrite IH by lia. reflexivity.
Qed.

(** ** The second sync and step 5: the texts *)

Lemma answer_ranges (h : Host) (rs : list Range) :
  forall w,
    fold_left (answer h) (map LoadText rs) w
    = set_loaded (loaded w ++ map (fun r => (r, range_text h r)) rs) w.
Proof.
  induction rs as [|r rs IH]; intros w.
  - destruct w. unfold set_loaded. simpl. rewrite app_nil_r. reflexivity.
  - simpl. rewrite IH. destruct w. unfold set_loaded. simpl.
    rewrite <- app_assoc. reflexivity.
Qed.

Lemma lookupText_loaded (f : Range -> jsstring) (rs : list Range) (r : Range) :
  In r rs -> lookupText r (map (fun r => (r, f r)) rs) = Some (f r).
Proof.
  induction rs as [|r' rs IH]; simpl; [tauto|].
  intros H. destruct (Range_eq_dec r r') as [->|Hne]; [reflexivity|].
  destruct H as [H|H]; [congruence|]. exact (IH H).
Qed.

Lemma prompt_range_queued (ss : list Stub) (d : PromptData.t) :
  In d (promptsOf ss) -> In (PromptData._range d) (rangesOf ss).
Proof.
  unfold promptsOf, rangesOf. rewrite !in_flat_map.
  intros [s [Hs Hd]]. exists s. split; [exact Hs|].
  destruct s as [t r|t]; simpl in *; [|tauto].
  destruct Hd as [<-|[]]. left. reflexivity.
Qed.

Lemma update_middle {A} (f : A -> A) (P : list A) (x : A) (l : list A) :
  update (P ++ x :: l) (List.length P) f = P ++ f x :: l.
Proof. induction P as [|y P IH]; simpl; [reflexivity|]. rewrite IH. reflexivity. Qed.

Lemma nth_error_middle {A} (P : list A) (x : A) (l : list A) :
  nth_error (P ++ x :: l) (List.length P) = Some x.
Proof. induction P as [|y P IH]; simpl; [reflexivity|exact IH]. Qed.

Lemma retrieve_spec (h : Host) (rest : list PromptData.t) :
  forall P w,
    heap w = P ++ rest ->
    (forall d, In d rest ->
       lookupText (PromptData._range d) (loaded w)
       = Some (range_text h (PromptData._range d))) ->
    retrieve (seq (List.length P) (List.length rest)) w
    = (Returned tt, set_heap (P ++ map (filled h) rest) w).
Proof.
  induction rest as [|d rest IH]; intros P w Hheap Hloaded.
  - simpl. unfold ret. destruct w. simpl in Hheap. subst.
    reflexivity.
  - cbn [List.length seq retrieve].
    unfold bind at 1, deref. rewrite Hheap, nth_error_middle.
    unfold bind at 1, getText. rewrite (Hloaded d (or_introl eq_refl)).
    unfold bind at 1, write_textToCopy, modify. rewrite Hheap, update_middle.
    specialize (IH (P ++ [filled h d])
                   (set_heap (P ++ filled h d :: rest) w)).
    rewrite length_app, Nat.add_1_r in IH.
    change (PromptData.set_textToCopy (trim (range_text h (PromptData._range d))) d)
      with (filled h d).
    rewrite IH.
    + destruct w. unfold set_heap. simpl. rewrite <- app_assoc. reflexivity.
    + simpl. rewrite <- app_assoc. reflexivity.
    + intros d' Hd'. destruct w. simpl in *. apply Hloaded. right. exact Hd'.
Qed.

(** ** Step 6: the elements *)

Lemma build_spec (its : list UIItem.t) :
  forall w,
    build its w = (Returned tt, set_container (container w ++ map elementOf its) w).
Proof.
  induction its as [|item its IH]; intros w.
  - destruct w. unfold ret, set_container. simpl. rewrite app_nil_r. reflexivity.
  - cbn [build]. unfold bind.
    assert (E : (match UIItem.type item with
                 | label => appendChild (H3 (lit "ms-font-l") (UIItem.text item))
                 | button => appendChild (ButtonElement (lit "ms-Button") (UIItem.text item) item)
                 end) w = (Returned tt, set_container (container w ++ [elementOf item]) w)).
    { unfold elementOf. destruct (UIItem.type item); reflexivity. }
    rewrite E, IH. destruct w. unfold set_container. simpl.
    rewrite <- app_assoc. reflexivity.
Qed.

(** ** The four ways a scan ends *)

Lemma itemsOf_length (ss : list Stub) :
  forall ref, List.length (itemsOf ss ref) = List.length ss.
Proof.
  induction ss as [|[t r|t] ss IH]; intros ref; simpl; [reflexivity| |];
    rewrite IH; reflexivity.
Qed.

Lemma scan_failedFirst (h : Host) (w : World) :
  sync_resolves h (List.length (syncs w)) = false ->
  scanAndBuildUI h w = (Returned tt, failedFirst w).
Proof.
  intros H1. destruct w.
  unfold scanAndBuildUI, scanCallback, WordRun, tryCatch, bind, clearContainer,
    setStatus, consoleWrite, load, modify, sync. cbn in *.
  rewrite H1. reflexivity.
Qed.

Lemma scan_scanned (h : Host) (w : World) :
  sync_resolves h (List.length (syncs w)) = true ->
  sync_resolves h (S (List.length (syncs w))) = true ->
  headings (body_paragraphs h) <> [] ->
  scanAndBuildUI h w = (Returned tt, scanned h w).
Proof.
  intros H1 H2 Hne. destruct w.
  unfold scanAndBuildUI, tryCatch, bind at 1 2, clearContainer, setStatus, modify, WordRun.
  unfold scanCallback.
  unfold bind at 1, load, modify.
  unfold bind at 1, sync. cbn in H1, H2 |- *.
  rewrite H1.
  unfold bind at 1, getItems. cbn [items set_items].
  rewrite findHeadings_headings.
  destruct (List.length (headings (body_paragraphs h)) =? 0) eqn:E0.
  { apply Nat.eqb_eq in E0. destruct (headings (body_paragraphs h)); [congruence|discriminate]. }
  unfold bind at 1. rewrite prepare_spec by reflexivity.
  change (skipn 0 (headings (body_paragraphs h))) with (headings (body_paragraphs h)).
  change (stubsFrom (headings (body_paragraphs h)) 0 (headings (body_paragraphs h)))
    with (stubs (headings (body_paragraphs h))).
  unfold scanned. cbv zeta.
  set (ss := stubs (headings (body_paragraphs h))). clearbody ss.
  unfold prepared, fresh_context. cbn.
  unfold bind at 1, sync. cbn.
  rewrite length_app. cbn [List.length]. rewrite Nat.add_1_r, H2.
  rewrite answer_ranges. cbn.
  unfold bind at 1.
  rewrite (retrieve_spec h (promptsOf ss) heap0).
  2: reflexivity.
  2: { intros d Hd. cbn [loaded]. apply lookupText_loaded. apply prompt_range_queued. exact Hd. }
  unfold bind at 1, setStatus, modify.
  rewrite itemsOf_length.
  destruct (List.length ss =? 0) eqn:Ess.
  - cbn. rewrite <- app_assoc. 
    apply Nat.eqb_eq in Ess. destruct ss; [|discriminate]. reflexivity.
  - rewrite build_spec. cbn. rewrite <- app_assoc. reflexivity.
Qed.

Lemma scan_failedSecond (h : Host) (w : World) :
  sync_resolves h (List.length (syncs w)) = true ->
  sync_resolves h (S (List.length (syncs w))) = false ->
  headings (body_paragraphs h) <> [] ->
  scanAndBuildUI h w = (Returned tt, failedSecond h w).
Proof.
  intros H1 H2 Hne. destruct w.
  unfold scanAndBuildUI, tryCatch, bind at 1 2, clearContainer, setStatus, modify, WordRun.
  unfold scanCallback.
  unfold bind at 1, load, modify.
  unfold bind at 1, sync. cbn in H1, H2 |- *.
  rewrite H1.
  unfold bind at 1, getItems. cbn [items set_items].
  rewrite findHeadings_headings.
  destruct (List.length (headings (body_paragraphs h)) =? 0) eqn:E0.
  { apply Nat.eqb_eq in E0. destruct (headings (body_paragraphs h)); [congruence|discriminate]. }
  unfold bind at 1. rewrite prepare_spec by reflexivity.
  change (skipn 0 (headings (body_paragraphs h))) with (headings (body_paragraphs h)).
  change (stubsFrom (headings (body_paragraphs h)) 0 (headings (body_paragraphs h)))
    with (stubs (headings (body_paragraphs h))).
  unfold failedSecond. cbv zeta.
  set (ss := stubs (headings (body_paragraphs h))). clearbody ss.
  unfold prepared, fresh_context. cbn.
  unfold bind at 1, sync. cbn.
  rewrite length_app. cbn [List.length]. rewrite Nat.add_1_r, H2.
  unfold consoleWrite, bind, modify. cbn. rewrite <- app_assoc. reflexivity.
Qed.

Lemma scan_withoutHeadings (h : Host) (w : World) :
  sync_resolves h (List.length (syncs w)) = true ->
  headings (body_paragraphs h) = [] ->
  scanAndBuildUI h w = (Returned tt, withoutHeadings h w).
Proof.
  intros H1 Hnil. destruct w.
  unfold scanAndBuildUI, tryCatch, bind at 1 2, clearContainer, setStatus, modify, WordRun.
  unfold scanCallback.
  unfold bind at 1, load, modify.
  unfold bind at 1, sync. cbn in H1 |- *.
  rewrite H1.
  unfold bind at 1, getItems. cbn [items set_items].
  rewrite findHeadings_headings, Hnil. reflexivity.
Qed.

(** ** Positions in the sequences of a scan *)

Lemma numbered_app {A} (a b : list A) :
  forall i, numbered i (a ++ b) = numbered i a ++ numbered (i + List.length a) b.
Proof.
  induction a as [|x a IH]; intros i.
  - simpl. rewrite Nat.add_0_r. reflexivity.
  - rewrite <- app_comm_cons, !numbered_cons, IH. simpl.
    rewrite Nat.add_succ_r. reflexivity.
Qed.

Lemma stubsFrom_app (all a b : list Heading.t) (i : nat) :
  stubsFrom all i (a ++ b)
  = stubsFrom all i a ++ stubsFrom all (i + List.length a) b.
Proof. unfold stubsFrom. rewrite numbered_app, flat_map_app. reflexivity. Qed.

Lemma split_at {A} (l : list A) (i : nat) (x : A) :
  nth_error l i = Some x ->
  l = firstn i l ++ x :: skipn (S i) l /\ List.length (firstn i l) = i.
Proof.
  intros H. split.
  - rewrite <- (nth_error_skipn_cons _ _ H), firstn_skipn. reflexivity.
  - apply firstn_length_le. apply Nat.lt_le_incl. apply nth_error_Some. congruence.
Qed.

Lemma stubs_split (hs : list Heading.t) (i : nat) (hd : Heading.t) :
  nth_error hs i = Some hd ->
  stubs hs = stubsFrom hs 0 (firstn i hs) ++ stubOf hs (i, hd)
             ++ stubsFrom hs (S i) (skipn (S i) hs).
Proof.
  intros H. destruct (split_at _ _ H) as [Hs Hl].
  unfold stubs. rewrite Hs at 2. rewrite stubsFrom_app, stubsFrom_cons, Hl.
  reflexivity.
Qed.

Lemma stubsFrom_length (all l : list Heading.t) :
  forall i, List.length (stubsFrom all i l) = List.length (filter hasMarker l).
Proof.
  induction l as [|hd l IH]; intros i; [reflexivity|].
  rewrite stubsFrom_cons, length_app, IH. simpl.
  unfold stubOf, hasMarker. simpl. destruct (marker hd); reflexivity.
Qed.

Lemma rangesOf_stubsFrom_length (all l : list Heading.t) :
  forall i, List.length (rangesOf (stubsFrom all i l)) = List.length (filter isButton l).
Proof.
  induction l as [|hd l IH]; intros i; [reflexivity|].
  rewrite stubsFrom_cons. unfold rangesOf in *. rewrite flat_map_app, length_app, IH.
  simpl. unfold stubOf, isButton. simpl. destruct (marker hd); reflexivity.
Qed.

(** The stub of the heading at position [i] sits after the stubs of the
    marked headings before it. *)
Lemma nth_stub (hs : list Heading.t) (i : nat) (hd : Heading.t) (s : Stub) :
  nth_error hs i = Some hd ->
  stubOf hs (i, hd) = [s] ->
  nth_error (stubs hs) (List.length (filter hasMarker (firstn i hs))) = Some s.
Proof.
  intros H Hs. rewrite (stubs_split _ _ H), Hs.
  rewrite <- (stubsFrom_length hs (firstn i hs) 0).
  apply nth_error_middle.
Qed.

(** The range of the Button heading at position [i] sits after the ranges
    of the Button headings before it. *)
Lemma nth_range (hs : list Heading.t) (i : nat) (hd : Heading.t) :
  nth_error hs i = Some hd ->
  marker hd = Button ->
  nth_error (rangesOf (stubs hs)) (List.length (filter isButton (firstn i hs)))
  = Some (contentRange hs i hd).
Proof.
  intros H Hm. rewrite (stubs_split _ _ H).
  unfold rangesOf. rewrite !flat_map_app.
  unfold stubOf. cbn [fst snd]. rewrite Hm. cbn [flat_map rangeOf app].
  rewrite <- (rangesOf_stubsFrom_length hs (firstn i hs) 0).
  apply nth_error_middle.
Qed.

Lemma nth_prompt (hs : list Heading.t) (i : nat) (hd : Heading.t) :
  nth_error hs i = Some hd ->
  marker hd = Button ->
  exists before after,
    promptsOf (stubs hs)
    = before ++ {| PromptData.buttonText := displayText hd;
                   PromptData.textToCopy := [];
                   PromptData._range := contentRange hs i hd |} :: after
    /\ List.length before = List.length (filter isButton (firstn i hs)).
Proof.
  intros H Hm. rewrite (stubs_split _ _ H).
  unfold promptsOf. rewrite !flat_map_app.
  unfold stubOf. cbn [fst snd]. rewrite Hm. cbn [flat_map promptOf app].
  eexists _, _. split; [reflexivity|].
  rewrite <- (rangesOf_stubsFrom_length hs (firstn i hs) 0).
  generalize (stubsFrom hs 0 (firstn i hs)). intros ss.
  induction ss as [|[t r|t] ss IH]; simpl; auto.
Qed.

(** ** The directives of a finished scan *)

Lemma directives_items (h : Host) (ss : list Stub) :
  forall P Q,
    map (directiveIn (P ++ map (filled h) (promptsOf ss) ++ Q))
        (map elementOf (itemsOf ss (List.length P)))
    = map (fun s => Some (resolved h s)) ss.
Proof.
  induction ss as [|[t r|t] ss IH]; intros P Q; [reflexivity| |].
  - cbn [itemsOf map promptsOf flat_map promptOf app].
    unfold elementOf at 1, directiveIn at 1. cbn [UIItem.type UIItem.data UIItem.text].
    rewrite nth_error_middle. cbn [filled PromptData.set_textToCopy PromptData.textToCopy
                                   PromptData._range resolved].
    f_equal.
    specialize (IH (P ++ [filled h {| PromptData.buttonText := t;
                                      PromptData.textToCopy := [];
                                      PromptData._range := r |}]) Q).
    rewrite length_app, Nat.add_1_r, <- app_assoc in IH. exact IH.
  - cbn [itemsOf map promptsOf flat_map promptOf app]. f_equal. apply IH.
Qed.

Lemma directives_scanned (h : Host) (w : World) :
  directives (scanned h w)
  = map (fun s => Some (resolved h s)) (stubs (headings (body_paragraphs h))).
Proof.
  unfold directives, scanned. cbn [heap container].
  rewrite <- (directives_items h (stubs (headings (body_paragraphs h))) (heap w) []).
  rewrite app_nil_r. reflexivity.
Qed.

Lemma syncs_added {A} (l x : list A) : skipn (List.length l) (l ++ x) = x.
Proof. induction l; simpl; auto. Qed.

Lemma rangesOf_stubsFrom (all l : list Heading.t) :
  forall i,
    rangesOf (stubsFrom all i l)
    = flat_map (fun ih => if isButton (snd ih)
                          then [contentRange all (fst ih) (snd ih)] else [])
               (numbered i l).
Proof.
  induction l as [|hd l IH]; intros i; [reflexivity|].
  rewrite stubsFrom_cons, numbered_cons. unfold rangesOf in *.
  rewrite flat_map_app, IH. cbn [flat_map]. f_equal.
  unfold stubOf, isButton. cbn [fst snd]. destruct (marker hd); reflexivity.
Qed.

Lemma filter_none {A} (f : A -> bool) (l : list A) :
  (forall x, In x l -> f x = false) -> filter f l = [].
Proof.
  induction l as [|x l IH]; intros H; [reflexivity|]. simpl.
  rewrite (H x (or_introl eq_refl)). apply IH. intros y Hy. apply H. right. exact Hy.
Qed.

Lemma headings_nonempty (ps : list Paragraph.t) :
  (List.length (headings ps) =? 0) = false <-> headings ps <> [].
Proof.
  destruct (headings ps); simpl; split; intros H; congruence.
Qed.

(** The batches of a scan, in every case. *)
Lemma syncsOfScan_cases (h : Host) (w : World) :
  syncsOfScan h w
  = if sync_resolves h (List.length (syncs w))
       && negb (List.length (headings (body_paragraphs h)) =? 0)
    then [[LoadParagraphs];
          map LoadText (rangesOf (stubs (headings (body_paragraphs h))))]
    else [[LoadParagraphs]].
Proof.
  unfold syncsOfScan.
  destruct (sync_resolves h (List.length (syncs w))) eqn:H1.
  - destruct (List.length (headings (body_paragraphs h)) =? 0) eqn:E0.
    + rewrite scan_withoutHeadings; auto.
      * apply syncs_added.
      * apply Nat.eqb_eq in E0. destruct (headings (body_paragraphs h)); [reflexivity|discriminate].
    + apply headings_nonempty in E0.
      destruct (sync_resolves h (S (List.length (syncs w)))) eqn:H2.
      * rewrite scan_scanned; auto. apply syncs_added.
      * rewrite scan_failedSecond; auto. apply syncs_added.
  - rewrite scan_failedFirst; auto. apply syncs_added.
Qed.

(** ** Headings and their paragraphs *)

Lemma in_numbered {A} (l : list A) :
  forall j i x, In (i, x) (numbered j l) <-> j <= i /\ nth_error l (i - j) = Some x.
Proof.
  induction l as [|y l IH]; intros j i x.
  - simpl. split; [tauto|]. intros [_ H]. destruct (i - j); discriminate.
  - rewrite numbered_cons. simpl. rewrite IH. split.
    + intros [H|[H1 H2]].
      * inversion H. subst. rewrite Nat.sub_diag. auto.
      * split; [lia|]. replace (i - j) with (S (i - S j)) by lia. exact H2.
    + intros [H1 H2]. destruct (i - j) as [|k] eqn:E.
      * left. simpl in H2. inversion H2. f_equal. lia.
      * right. split; [lia|]. simpl in H2. replace (i - S j) with k by lia. exact H2.
Qed.

Lemma heading_paragraph (ps : list Paragraph.t) (hd : Heading.t) :
  In hd (headings ps) <->
  exists p, nth_error ps (Heading.paragraph hd) = Some p
            /\ isHeading p = true
            /\ hd = headingOf (Heading.paragraph hd, p).
Proof.
  unfold headings. rewrite in_map_iff. split.
  - intros [[i p] [<- Hin]]. apply filter_In in Hin. destruct Hin as [Hin Hh].
    apply in_numbered in Hin. destruct Hin as [_ Hn]. rewrite Nat.sub_0_r in Hn.
    exists p. auto.
  - intros [p [Hn [Hh Heq]]]. exists (Heading.paragraph hd, p).
    split; [congruence|]. apply filter_In. split; [|exact Hh].
    apply in_numbered. rewrite Nat.sub_0_r. split; [lia|exact Hn].
Qed.

Lemma no_heading_paragraph (ps : list Paragraph.t) :
  (forall p, In p ps -> isHeading p = false) -> headings ps = [].
Proof.
  intros H. unfold headings. rewrite filter_none; [reflexivity|].
  intros [i p] Hin. apply H. unfold numbered in Hin.
  apply in_combine_r in Hin. exact Hin.
Qed.

Lemma numbered_sorted {A} (f : nat * A -> bool) (l : list A) :
  forall j,
    StronglySorted lt (map fst (filter f (numbered j l)))
    /\ Forall (fun i => j <= i) (map fst (filter f (numbered j l))).
Proof.
  induction l as [|x l IH]; intros j.
  - simpl. split; constructor.
  - rewrite numbered_cons. destruct (IH (S j)) as [Hs Hf].
    assert (Hf' : Forall (fun i => j <= i) (map fst (filter f (numbered (S j) l)))).
    { eapply Forall_impl; [|exact Hf]. simpl. intros. lia. }
    simpl. destruct (f (j, x)); simpl.
    + split; constructor; auto.
    + split; auto.
Qed.

Lemma headings_sorted (ps : list Paragraph.t) :
  StronglySorted lt (map Heading.index (headings ps)).
Proof.
  unfold headings. rewrite map_map. cbn [headingOf Heading.index].
  apply numbered_sorted.
Qed.

Lemma stubsFrom_unmarked (all l : list Heading.t) :
  (forall hd, In hd l -> marker hd = NoMarker) ->
  forall i, stubsFrom all i l = [].
Proof.
  induction l as [|hd l IH]; intros H i; [reflexivity|].
  rewrite stubsFrom_cons, IH by (intros; apply H; right; assumption).
  unfold stubOf. cbn [snd]. rewrite (H hd (or_introl eq_refl)). reflexivity.
Qed.

Lemma stubsFrom_labels (all l : list Heading.t) :
  (forall hd, In hd l -> isButton hd = false) ->
  forall i s, In s (stubsFrom all i l) -> exists t, s = LabelStub t.
Proof.
  induction l as [|hd l IH]; intros H i s Hin; [destruct Hin|].
  rewrite stubsFrom_cons in Hin. apply in_app_or in Hin. destruct Hin as [Hin|Hin].
  - specialize (H hd (or_introl eq_refl)). unfold isButton in H.
    unfold stubOf in Hin. cbn [snd] in Hin.
    destruct (marker hd); try discriminate; simpl in Hin.
    + destruct Hin as [<-|[]]. eauto.
    + destruct Hin.
  - apply (IH (fun hd' Hhd' => H hd' (or_intror Hhd')) (S i) s Hin).
Qed.

(** ** The directive of one heading *)

Lemma nth_directive (h : Host) (w : World) (i : nat) (hd : Heading.t) (s : Stub) :
  serviceAnswers h w ->
  nth_error (headings (body_paragraphs h)) i = Some hd ->
  stubOf (headings (body_paragraphs h)) (i, hd) = [s] ->
  scanAndBuildUI h w = (Returned tt, scanned h w)
  /\ nth_error (directives (scanned h w))
               (List.length (filter hasMarker (firstn i (headings (body_paragraphs h)))))
     = Some (Some (resolved h s)).
Proof.
  intros [H1 H2] Hn Hs. split.
  - apply scan_scanned; auto. intros E. rewrite E in Hn. destruct i; discriminate.
  - rewrite directives_scanned, nth_error_map, (nth_stub _ _ Hn Hs). reflexivity.
Qed.

Lemma scanned_status (h : Host) (w : World) (j : nat) (s : Stub) :
  nth_error (stubs (headings (body_paragraphs h))) j = Some s ->
  statusMessage (scanned h w) = [].
Proof.
  unfold scanned. cbn [statusMessage].
  destruct (stubs (headings (body_paragraphs h))); [destruct j; discriminate|].
  reflexivity.
Qed.

(** ** The copy action *)

Lemma copy_empty (h : Host) (buttonText : jsstring) (w : World) :
  copyTextToClipboard h [] buttonText w
  = (Returned tt,
     set_statusMessage msgNothingToCopy
       (set_console
          (console w
           ++ [ConsoleLog (lit "Button clicked for: " ++ dquote ++ buttonText ++ dquote);
               ConsoleWarn (lit "Text to copy is empty. (Was it empty in the doc?)")])
          w)).
Proof.
  destruct w. unfold copyTextToClipboard, bind, tryCatch, consoleWrite, setStatus, modify.
  cbn. rewrite <- app_assoc. reflexivity.
Qed.

Lemma click_empty (h : Host) (w : World) (e : Element) (t : jsstring) :
  directiveIn (heap w) e = Some (ButtonDirective t []) ->
  exists buttonText, click h e w = copyTextToClipboard h [] buttonText w.
Proof.
  destruct e as [c t'|c t' item]; simpl; [discriminate|].
  unfold onclick, bind, deref.
  destruct (UIItem.data item) as [r|]; [|discriminate].
  destruct (nth_error (heap w) r) as [d|]; [|discriminate].
  intros H. inversion H. exists (PromptData.buttonText d).
  reflexivity.
Qed.

(** ** Markers *)

Lemma isTrimOf_trim (s : jsstring) : isTrimOf s (trim s).
Proof.
  split; [apply trim_split|]. split; intros c r H.
  - eapply trim_first. exact H.
  - eapply trim_last. exact H.
Qed.

Lemma startsWith_char (s : jsstring) (c : N) :
  startsWith s [c] = true -> exists rest, s = c :: rest.
Proof.
  destruct s as [|b s]; simpl; [discriminate|].
  rewrite andb_true_r. intros H. apply N.eqb_eq in H. subst. eauto.
Qed.

Lemma marker_Button (hd : Heading.t) :
  marker hd = Button ->
  exists rest, trim (Heading.text hd) = 42%N :: rest /\ displayText hd = trim rest.
Proof.
  unfold marker, displayText.
  destruct (startsWith (trim (Heading.text hd)) (lit "*")) eqn:E.
  - intros _. destruct (startsWith_char _ _ E) as [rest ->]. eauto.
  - destruct (startsWith (trim (Heading.text hd)) (lit "_")); discriminate.
Qed.

Lemma marker_Label (hd : Heading.t) :
  marker hd = Label ->
  exists rest, trim (Heading.text hd) = 95%N :: rest /\ displayText hd = trim rest.
Proof.
  unfold marker, displayText.
  destruct (startsWith (trim (Heading.text hd)) (lit "*")); [discriminate|].
  destruct (startsWith (trim (Heading.text hd)) (lit "_")) eqn:E; [|discriminate].
  intros _. destruct (startsWith_char _ _ E) as [rest ->]. eauto.
Qed.

(** * The claims *)

Unset Implicit Arguments.

(** C1 (as amended).  The first sync of a scan carries the paragraph fetch
    alone.  When it resolves and the document has a heading, the scan makes
    exactly one more sync, and its batch holds one range load for each
    Button heading, in the order of the headings; otherwise (no heading, or
    the fetch rejected) the first sync is the only one.  So a scan suspends
    on the service once or twice, whatever the number of headings. *)
Theorem C1_syncs_of_a_scan (h : Host) (w : World) :
  let hs := headings (body_paragraphs h) in
  let batch :=
    flat_map (fun ih => if isButton (snd ih)
                        then [LoadText (contentRange hs (fst ih) (snd ih))] else [])
             (numbered 0 hs) in
  syncsOfScan h w
  = (if sync_resolves h (List.length (syncs w)) && negb (List.length hs =? 0)
     then [[LoadParagraphs]; batch]
     else [[LoadParagraphs]])
  /\ List.length batch = List.length (filter isButton hs)
  /\ 1 <= List.length (syncsOfScan h w) <= 2.
Proof.
  intros hs batch.
  assert (Hb : batch = map LoadText (rangesOf (stubs hs))).
  { unfold batch, stubs. rewrite rangesOf_stubsFrom.
    generalize (numbered 0 hs). intros l.
    induction l as [|ih l IH]; [reflexivity|]. cbn [flat_map].
    rewrite map_app, <- IH. destruct (isButton (snd ih)); reflexivity. }
  split; [|split].
  - rewrite Hb. apply syncsOfScan_cases.
  - rewrite Hb, length_map. apply rangesOf_stubsFrom_length.
  - rewrite syncsOfScan_cases.
    destruct (sync_resolves h (List.length (syncs w))
              && negb (List.length (headings (body_paragraphs h)) =? 0));
      simpl; lia.
Qed.

(** C1 as stated fails: the scan of a document without headings suspends
    on the service once, not twice. *)
Lemma C1_one_sync_without_headings :
  List.length (syncsOfScan (documentHost [para "Normal" "body text"]) initial) <> 2.
Proof. vm_compute. discriminate. Qed.

(** C2.  For the Button heading at position [i] of the heading sequence,
    the range that is built, queued in the second batch and kept in the
    heading's [promptData] object runs from the end of the heading's own
    paragraph to the start of the paragraph of the heading at position
    [i + 1], whatever that heading's marker, or to the end of the body when
    there is no heading at [i + 1]. *)
Theorem C2_content_range (h : Host) (w : World) (i : nat) (hd : Heading.t) :
  sync_resolves h (List.length (syncs w)) = true ->
  nth_error (headings (body_paragraphs h)) i = Some hd ->
  marker hd = Button ->
  let hs := headings (body_paragraphs h) in
  let k := List.length (filter isButton (firstn i hs)) in
  let r := ExpandTo (ParagraphRange (Heading.paragraph hd) REnd)
                    (match nth_error hs (i + 1) with
                     | Some next => ParagraphRange (Heading.paragraph next) RStart
                     | None => BodyRange REnd
                     end) in
  (exists batch, nth_error (syncsOfScan h w) 1 = Some batch
                 /\ nth_error batch k = Some (LoadText r))
  /\ (exists d, nth_error (heap (snd (scanAndBuildUI h w))) (List.length (heap w) + k) = Some d
                /\ PromptData._range d = r
                /\ PromptData.buttonText d = displayText hd)
  /\ (exists p, nth_error (body_paragraphs h) (Heading.paragraph hd) = Some p
                /\ isHeading p = true
                /\ Paragraph.text p = Heading.text hd).
Proof.
  intros H1 Hn Hm. cbv zeta. rewrite Nat.add_1_r.
  change (ExpandTo (ParagraphRange (Heading.paragraph hd) REnd)
            match nth_error (headings (body_paragraphs h)) (S i) with
            | Some next => ParagraphRange (Heading.paragraph next) RStart
            | None => BodyRange REnd
            end)
    with (contentRange (headings (body_paragraphs h)) i hd).
  assert (Hne : headings (body_paragraphs h) <> []).
  { intros E. rewrite E in Hn. destruct i; discriminate. }
  split; [|split].
  - exists (map LoadText (rangesOf (stubs (headings (body_paragraphs h))))). split.
    + rewrite syncsOfScan_cases, H1.
      apply headings_nonempty in Hne. rewrite Hne. reflexivity.
    + rewrite nth_error_map, (nth_range _ _ Hn Hm). reflexivity.
  - destruct (nth_prompt _ _ Hn Hm) as [before [after [Hp Hl]]].
    destruct (sync_resolves h (S (List.length (syncs w)))) eqn:H2.
    + rewrite (scan_scanned h w H1 H2 Hne). unfold scanned. cbn [snd heap].
      rewrite Hp, map_app. cbn [map].
      eexists. split.
      * rewrite app_assoc, <- Hl, <- (length_map (filled h) before), <- length_app.
        apply nth_error_middle.
      * split; reflexivity.
    + rewrite (scan_failedSecond h w H1 H2 Hne). unfold failedSecond. cbn [snd heap].
      rewrite Hp.
      eexists. split.
      * rewrite app_assoc, <- Hl, <- length_app. apply nth_error_middle.
      * split; reflexivity.
  - assert (Hin : In hd (headings (body_paragraphs h))) by (eapply nth_error_In; eauto).
    apply heading_paragraph in Hin. destruct Hin as [p [Hp [Hh He]]].
    exists p. split; [exact Hp|]. split; [exact Hh|]. rewrite He. reflexivity.
Qed.

Lemma C2_content_range_witness :
  exists batch,
    nth_error (syncsOfScan (documentHost exampleDocument) initial) 1 = Some batch
    /\ nth_error batch 0
       = Some (LoadText (ExpandTo (ParagraphRange 1 REnd) (ParagraphRange 3 RStart))).
Proof.
  apply (C2_content_range (documentHost exampleDocument) initial 1
           {| Heading.paragraph := 1; Heading.text := lit "*Explain"; Heading.index := 1 |});
    reflexivity.
Defined.

(** C3.  The heading sequence built by step 2 is the heading-styled
    paragraphs in paragraph order (their positions increase strictly), and
    the directives shown after the scan are the directives of the headings
    that carry a marker, one each, in the order of the headings. *)
Theorem C3_document_order (h : Host) (w : World) :
  serviceAnswers h w ->
  let ps := body_paragraphs h in
  let hs := findHeadings ps 0 [] in
  hs = map headingOf (filter (fun ip => isHeading (snd ip)) (numbered 0 ps))
  /\ StronglySorted lt (map Heading.index hs)
  /\ directives (snd (scanAndBuildUI h w))
     = map (fun s => Some (resolved h s)) (flat_map (stubOf hs) (numbered 0 hs)).
Proof.
  intros [H1 H2] ps hs. unfold hs, ps. rewrite findHeadings_headings.
  split; [reflexivity|]. split; [apply headings_sorted|].
  destruct (headings (body_paragraphs h)) as [|hd0 l] eqn:E.
  - rewrite (scan_withoutHeadings h w H1 E). reflexivity.
  - rewrite scan_scanned; auto; [|congruence].
    cbn [snd]. rewrite directives_scanned, E. reflexivity.
Qed.

Lemma C3_document_order_witness :
  directives (snd (scanAndBuildUI (documentHost exampleDocument) initial))
  = [ Some (ButtonDirective (lit "Explain") (lit "body text A"));
      Some (LabelDirective (lit "Section"));
      Some (ButtonDirective (lit "Summarize") (lit "body text B")) ].
Proof.
  destruct (C3_document_order (documentHost exampleDocument) initial
              (conj eq_refl eq_refl)) as [_ [_ H]].
  rewrite H. reflexivity.
Defined.

(** C4.  When no paragraph of the document has a heading style, the scan
    returns after the paragraph fetch with the "no headings" status: no
    range is built or queued, no second sync is made, and nothing is put in
    the container. *)
Theorem C4_no_headings (h : Host) (w : World) :
  sync_resolves h (List.length (syncs w)) = true ->
  (forall p, In p (body_paragraphs h) -> isHeading p = false) ->
  fst (scanAndBuildUI h w) = Returned tt
  /\ statusMessage (snd (scanAndBuildUI h w)) = msgNoHeadings
  /\ container (snd (scanAndBuildUI h w)) = []
  /\ directives (snd (scanAndBuildUI h w)) = []
  /\ syncsOfScan h w = [[LoadParagraphs]]
  /\ queue (snd (scanAndBuildUI h w)) = []
  /\ loaded (snd (scanAndBuildUI h w)) = []
  /\ heap (snd (scanAndBuildUI h w)) = heap w.
Proof.
  intros H1 Hno. apply no_heading_paragraph in Hno.
  unfold syncsOfScan. rewrite (scan_withoutHeadings h w H1 Hno).
  cbn [fst snd withoutHeadings statusMessage container syncs queue loaded heap].
  repeat split. apply syncs_added.
Qed.

Lemma C4_no_headings_witness :
  statusMessage (snd (scanAndBuildUI (documentHost [para "Normal" "body text"]) initial))
  = msgNoHeadings.
Proof.
  apply (C4_no_headings (documentHost [para "Normal" "body text"]) initial).
  - reflexivity.
  - intros p [<-|[]]. reflexivity.
Defined.

(** C5.  When the document has a heading paragraph and no heading's
    trimmed text starts with [*] or [_], the scan ends normally with the
    "no prompts" status, which differs from the "no headings" status and
    from the error status; nothing is shown and nothing is logged. *)
Theorem C5_no_directives (h : Host) (w : World) :
  serviceAnswers h w ->
  (exists p, In p (body_paragraphs h) /\ isHeading p = true) ->
  (forall p, In p (body_paragraphs h) -> isHeading p = true ->
             startsWith (trim (Paragraph.text p)) (lit "*") = false
             /\ startsWith (trim (Paragraph.text p)) (lit "_") = false) ->
  fst (scanAndBuildUI h w) = Returned tt
  /\ statusMessage (snd (scanAndBuildUI h w)) = msgNoPrompts
  /\ msgNoPrompts <> msgNoHeadings
  /\ msgNoPrompts <> msgScanError
  /\ container (snd (scanAndBuildUI h w)) = []
  /\ directives (snd (scanAndBuildUI h w)) = []
  /\ console (snd (scanAndBuildUI h w)) = console w.
Proof.
  intros [H1 H2] [p [Hin Hh]] Hno.
  assert (Hne : headings (body_paragraphs h) <> []).
  { destruct (In_nth_error _ _ Hin) as [i Hi].
    assert (Hhd : In (headingOf (i, p)) (headings (body_paragraphs h))).
    { apply heading_paragraph. exists p. auto. }
    intros E. rewrite E in Hhd. destruct Hhd. }
  assert (Hss : stubs (headings (body_paragraphs h)) = []).
  { apply stubsFrom_unmarked. intros hd Hhd.
    apply heading_paragraph in Hhd. destruct Hhd as [q [Hq [Hqh He]]].
    destruct (Hno q (nth_error_In _ _ Hq) Hqh) as [Ha Hb].
    unfold marker. rewrite He. cbn [headingOf Heading.text snd].
    rewrite Ha, Hb. reflexivity. }
  rewrite (scan_scanned h w H1 H2 Hne).
  unfold directives, scanned. cbn [fst snd statusMessage container console].
  rewrite Hss. cbn.
  repeat split; discriminate.
Qed.

Lemma C5_no_directives_witness :
  statusMessage (snd (scanAndBuildUI (documentHost [para "Heading1" "Intro"]) initial))
  = msgNoPrompts.
Proof.
  apply (C5_no_directives (documentHost [para "Heading1" "Intro"]) initial).
  - split; reflexivity.
  - exists (para "Heading1" "Intro"). split; [left|]; reflexivity.
  - intros p [<-|[]] _. split; reflexivity.
Defined.

(** C6.  When a sync of the scan rejects (the paragraph fetch, or the range
    resolution), the scan ends with the error status: the error is logged,
    the container stays empty and no directive is shown. *)
Theorem C6_failed_scan (h : Host) (w : World) :
  serviceFails h w ->
  fst (scanAndBuildUI h w) = Returned tt
  /\ statusMessage (snd (scanAndBuildUI h w)) = msgScanError
  /\ container (snd (scanAndBuildUI h w)) = []
  /\ directives (snd (scanAndBuildUI h w)) = []
  /\ console (snd (scanAndBuildUI h w))
     = console w ++ [ConsoleError (lit "Error in scanAndBuildUI:") SyncRejected]
  /\ clipboard (snd (scanAndBuildUI h w)) = clipboard w.
Proof.
  intros [H1|[H1 [Hne H2]]].
  - rewrite (scan_failedFirst h w H1). repeat split.
  - rewrite (scan_failedSecond h w H1 H2 Hne). repeat split.
Qed.

Lemma C6_failed_scan_witness :
  container (snd (scanAndBuildUI (failingHost exampleDocument 1) initial)) = []
  /\ container (snd (scanAndBuildUI (failingHost exampleDocument 0) initial)) = [].
Proof.
  split.
  - apply (C6_failed_scan (failingHost exampleDocument 1) initial).
    right. split; [reflexivity|]. split; [|reflexivity].
    vm_compute. discriminate.
  - apply (C6_failed_scan (failingHost exampleDocument 0) initial).
    left. reflexivity.
Defined.

(** C7.  A Button heading whose range text is empty once trimmed still
    gets its button, with an empty text to copy, and the scan ends normally
    with an empty status.  Clicking that button logs a warning, shows the
    "no text found" warning, and writes nothing to the clipboard. *)
Theorem C7_empty_payload (h : Host) (w : World) (i : nat) (hd : Heading.t) :
  serviceAnswers h w ->
  nth_error (headings (body_paragraphs h)) i = Some hd ->
  marker hd = Button ->
  trim (range_text h (contentRange (headings (body_paragraphs h)) i hd)) = [] ->
  let w' := snd (scanAndBuildUI h w) in
  let j := List.length (filter hasMarker (firstn i (headings (body_paragraphs h)))) in
  fst (scanAndBuildUI h w) = Returned tt
  /\ statusMessage w' = []
  /\ exists e,
       nth_error (container w') j = Some e
       /\ directiveIn (heap w') e = Some (ButtonDirective (displayText hd) [])
       /\ fst (click h e w') = Returned tt
       /\ statusMessage (snd (click h e w')) = msgNothingToCopy
       /\ clipboard (snd (click h e w')) = clipboard w'
       /\ In (ConsoleWarn (lit "Text to copy is empty. (Was it empty in the doc?)"))
             (console (snd (click h e w'))).
Proof.
  intros Hs Hn Hm Hempty. cbv zeta.
  assert (Hstub : stubOf (headings (body_paragraphs h)) (i, hd)
                  = [ButtonStub (displayText hd)
                                (contentRange (headings (body_paragraphs h)) i hd)]).
  { unfold stubOf. cbn [fst snd]. rewrite Hm. reflexivity. }
  destruct (@nth_directive h w i hd _ Hs Hn Hstub) as [Hscan Hd].
  rewrite Hscan. cbn [fst snd]. split; [reflexivity|].
  split; [exact (@scanned_status h w _ _ (@nth_stub _ i hd _ Hn Hstub))|].
  unfold directives in Hd. rewrite nth_error_map in Hd.
  destruct (nth_error (container (scanned h w)) _) as [e|] eqn:He; [|discriminate].
  exists e. split; [reflexivity|].
  cbn [option_map resolved] in Hd. rewrite Hempty in Hd. inversion Hd as [Hd'].
  split; [reflexivity|].
  destruct (@click_empty h (scanned h w) e _ Hd') as [bt ->].
  rewrite copy_empty. cbn. repeat split.
  apply in_or_app. right. right. left. reflexivity.
Qed.

Lemma C7_empty_payload_witness :
  exists e,
    nth_error (container (snd (scanAndBuildUI
                 (documentHost [para "Heading1" "*Empty"; para "Heading1" "*Next"])
                 initial))) 0 = Some e
    /\ directiveIn (heap (snd (scanAndBuildUI
                 (documentHost [para "Heading1" "*Empty"; para "Heading1" "*Next"])
                 initial))) e
       = Some (ButtonDirective (lit "Empty") []).
Proof.
  destruct (C7_empty_payload
              (documentHost [para "Heading1" "*Empty"; para "Heading1" "*Next"]) initial 0
              {| Heading.paragraph := 0; Heading.text := lit "*Empty"; Heading.index := 0 |}
              (conj eq_refl eq_refl) eq_refl eq_refl eq_refl)
    as [_ [_ [e [H1 [H2 _]]]]].
  exists e. split; [exact H1 | exact H2].
Defined.

(** C8.  The texts of a directive are trimmed.  For a heading with a
    marker, the shown text is what follows the marker in the heading's
    trimmed text, trimmed again; a button's text to copy is the text of its
    range, trimmed.  Trimming takes away white space at the two ends and
    nothing else. *)
Theorem C8_normalized_text (h : Host) (w : World) (i : nat) (hd : Heading.t) :
  serviceAnswers h w ->
  nth_error (headings (body_paragraphs h)) i = Some hd ->
  let w' := snd (scanAndBuildUI h w) in
  let j := List.length (filter hasMarker (firstn i (headings (body_paragraphs h)))) in
  let raw := range_text h (contentRange (headings (body_paragraphs h)) i hd) in
  (marker hd = Button ->
   exists rest,
     trim (Heading.text hd) = lit "*" ++ rest
     /\ nth_error (directives w') j = Some (Some (ButtonDirective (trim rest) (trim raw)))
     /\ isTrimOf (Heading.text hd) (lit "*" ++ rest)
     /\ isTrimOf rest (trim rest)
     /\ isTrimOf raw (trim raw))
  /\ (marker hd = Label ->
      exists rest,
        trim (Heading.text hd) = lit "_" ++ rest
        /\ nth_error (directives w') j = Some (Some (LabelDirective (trim rest)))
        /\ isTrimOf (Heading.text hd) (lit "_" ++ rest)
        /\ isTrimOf rest (trim rest)).
Proof.
  intros Hs Hn. cbv zeta. split; intros Hm.
  - destruct (marker_Button hd Hm) as [rest [Ht Hd]].
    assert (Hstub : stubOf (headings (body_paragraphs h)) (i, hd)
                    = [ButtonStub (displayText hd)
                                  (contentRange (headings (body_paragraphs h)) i hd)]).
    { unfold stubOf. cbn [fst snd]. rewrite Hm. reflexivity. }
    destruct (@nth_directive h w i hd _ Hs Hn Hstub) as [Hscan Hdir].
    exists rest. rewrite Hscan. cbn [snd]. rewrite Hdir. cbn [resolved]. rewrite Hd.
    split; [exact Ht|]. split; [reflexivity|].
    split; [|split; apply isTrimOf_trim].
    change (lit "*" ++ rest) with (42%N :: rest). rewrite <- Ht. apply isTrimOf_trim.
  - destruct (marker_Label hd Hm) as [rest [Ht Hd]].
    assert (Hstub : stubOf (headings (body_paragraphs h)) (i, hd)
                    = [LabelStub (displayText hd)]).
    { unfold stubOf. cbn [fst snd]. rewrite Hm. reflexivity. }
    destruct (@nth_directive h w i hd _ Hs Hn Hstub) as [Hscan Hdir].
    exists rest. rewrite Hscan. cbn [snd]. rewrite Hdir. cbn [resolved]. rewrite Hd.
    split; [exact Ht|]. split; [reflexivity|].
    split; [|apply isTrimOf_trim].
    change (lit "_" ++ rest) with (95%N :: rest). rewrite <- Ht. apply isTrimOf_trim.
Qed.

Lemma C8_normalized_text_witness :
  (exists rest,
     trim (lit "  * Copy me  ") = lit "*" ++ rest
     /\ nth_error (directives (snd (scanAndBuildUI (documentHost spacedDocument) initial))) 0
        = Some (Some (ButtonDirective (trim rest) (lit "the text"))))
  /\ (exists rest,
        trim (lit " _  Part one ") = lit "_" ++ rest
        /\ nth_error (directives (snd (scanAndBuildUI (documentHost spacedDocument) initial))) 1
           = Some (Some (LabelDirective (trim rest)))).
Proof.
  split.
  - destruct (C8_normalized_text (documentHost spacedDocument) initial 0
                {| Heading.paragraph := 0; Heading.text := lit "  * Copy me  ";
                   Heading.index := 0 |}
                (conj eq_refl eq_refl) eq_refl) as [H _].
    destruct (H eq_refl) as [rest [H1 [H2 _]]].
    exists rest. split; [exact H1 | exact H2].
  - destruct (C8_normalized_text (documentHost spacedDocument) initial 1
                {| Heading.paragraph := 2; Heading.text := lit " _  Part one ";
                   Heading.index := 2 |}
                (conj eq_refl eq_refl) eq_refl) as [_ H].
    destruct (H eq_refl) as [rest [H1 [H2 _]]].
    exists rest. split; [exact H1 | exact H2].
Defined.

(** C9.  When the document has headings but none is a Button heading, the
    second sync is still made, with an empty batch: the scan sends two
    batches.  When that sync resolves, the scan shows labels only, or ends
    with the "no prompts" status when there is no label either. *)
Theorem C9_empty_second_batch (h : Host) (w : World) :
  sync_resolves h (List.length (syncs w)) = true ->
  headings (body_paragraphs h) <> [] ->
  (forall hd, In hd (headings (body_paragraphs h)) -> isButton hd = false) ->
  syncsOfScan h w = [[LoadParagraphs]; []]
  /\ (sync_resolves h (S (List.length (syncs w))) = true ->
      fst (scanAndBuildUI h w) = Returned tt
      /\ (forall d, In d (directives (snd (scanAndBuildUI h w))) ->
                    exists t, d = Some (LabelDirective t))
      /\ statusMessage (snd (scanAndBuildUI h w))
         = if List.length (directives (snd (scanAndBuildUI h w))) =? 0
           then msgNoPrompts else []).
Proof.
  intros H1 Hne Hnb. split.
  - rewrite syncsOfScan_cases, H1.
    apply headings_nonempty in Hne. rewrite Hne. cbn [andb negb].
    assert (E : rangesOf (stubs (headings (body_paragraphs h))) = []).
    { apply length_zero_iff_nil. unfold stubs.
      rewrite rangesOf_stubsFrom_length, (filter_none _ _ Hnb). reflexivity. }
    rewrite E. reflexivity.
  - intros H2. rewrite (scan_scanned h w H1 H2 Hne). cbn [fst snd].
    rewrite directives_scanned. split; [reflexivity|]. split.
    + intros d Hd. apply in_map_iff in Hd. destruct Hd as [s [<- Hs]].
      destruct (stubsFrom_labels _ _ Hnb 0 s Hs) as [t ->]. exists t. reflexivity.
    + unfold scanned. cbn [statusMessage]. rewrite length_map. reflexivity.
Qed.

Lemma C9_empty_second_batch_witness :
  syncsOfScan (documentHost [para "Heading1" "_Section"; para "Heading2" "Intro"]) initial
  = [[LoadParagraphs]; []].
Proof.
  apply (C9_empty_second_batch
           (documentHost [para "Heading1" "_Section"; para "Heading2" "Intro"]) initial).
  - reflexivity.
  - vm_compute. discriminate.
  - vm_compute. intros hd [<-|[<-|[]]]; reflexivity.
Defined.

(** C10.  A heading whose trimmed text is the marker alone is not skipped:
    [*] gives a button with an empty text, whose range is loaded in the
    second batch like any other, and [_] gives a label with an empty
    text. *)
Theorem C10_marker_only (h : Host) (w : World) (i : nat) (hd : Heading.t) :
  serviceAnswers h w ->
  nth_error (headings (body_paragraphs h)) i = Some hd ->
  let w' := snd (scanAndBuildUI h w) in
  let hs := headings (body_paragraphs h) in
  let j := List.length (filter hasMarker (firstn i hs)) in
  let k := List.length (filter isButton (firstn i hs)) in
  (trim (Heading.text hd) = lit "*" ->
   nth_error (directives w') j
   = Some (Some (ButtonDirective [] (trim (range_text h (contentRange hs i hd)))))
   /\ exists batch, nth_error (syncsOfScan h w) 1 = Some batch
                    /\ nth_error batch k = Some (LoadText (contentRange hs i hd)))
  /\ (trim (Heading.text hd) = lit "_" ->
      nth_error (directives w') j = Some (Some (LabelDirective []))).
Proof.
  intros Hs Hn. cbv zeta. split; intros Ht.
  - assert (Hm : marker hd = Button) by (unfold marker; rewrite Ht; reflexivity).
    assert (Hstub : stubOf (headings (body_paragraphs h)) (i, hd)
                    = [ButtonStub [] (contentRange (headings (body_paragraphs h)) i hd)]).
    { unfold stubOf, displayText. cbn [fst snd]. rewrite Hm, Ht. reflexivity. }
    destruct (@nth_directive h w i hd _ Hs Hn Hstub) as [Hscan Hdir].
    rewrite Hscan. cbn [snd]. split; [exact Hdir|].
    exists (map LoadText (rangesOf (stubs (headings (body_paragraphs h))))). split.
    + rewrite syncsOfScan_cases. destruct Hs as [-> _].
      assert (Hne : headings (body_paragraphs h) <> []).
      { intros E. rewrite E in Hn. destruct i; discriminate. }
      apply headings_nonempty in Hne. rewrite Hne. reflexivity.
    + rewrite nth_error_map, (@nth_range _ i hd Hn Hm). reflexivity.
  - assert (Hm : marker hd = Label) by (unfold marker; rewrite Ht; reflexivity).
    assert (Hstub : stubOf (headings (body_paragraphs h)) (i, hd) = [LabelStub []]).
    { unfold stubOf, displayText. cbn [fst snd]. rewrite Hm, Ht. reflexivity. }
    destruct (@nth_directive h w i hd _ Hs Hn Hstub) as [Hscan Hdir].
    rewrite Hscan. exact Hdir.
Qed.

Lemma C10_marker_only_witness :
  nth_error (directives (snd (scanAndBuildUI (documentHost bareMarkers) initial))) 0
  = Some (Some (ButtonDirective [] (lit "text under the bare button")))
  /\ nth_error (directives (snd (scanAndBuildUI (documentHost bareMarkers) initial))) 1
     = Some (Some (LabelDirective [])).
Proof.
  split.
  - destruct (C10_marker_only (documentHost bareMarkers) initial 0
                {| Heading.paragraph := 0; Heading.text := lit " * "; Heading.index := 0 |}
                (conj eq_refl eq_refl) eq_refl) as [H _].
    destruct (H eq_refl) as [H1 _]. exact H1.
  - destruct (C10_marker_only (documentHost bareMarkers) initial 1
                {| Heading.paragraph := 2; Heading.text := lit "_"; Heading.index := 2 |}
                (conj eq_refl eq_refl) eq_refl) as [_ H].
    exact (H eq_refl).
Defined.

(** * Further properties of the task pane *)

(** ** The scan as a whole *)

Lemma scan_afterScan (h : Host) (w : World) :
  scanAndBuildUI h w = (Returned tt, afterScan h w).
Proof.
  unfold afterScan.
  destruct (sync_resolves h (List.length (syncs w))) eqn:H1.
  - destruct (List.length (headings (body_paragraphs h)) =? 0) eqn:E0.
    + apply scan_withoutHeadings; auto.
      apply Nat.eqb_eq in E0. destruct (headings (body_paragraphs h)); [reflexivity|discriminate].
    + apply headings_nonempty in E0.
      destruct (sync_resolves h (S (List.length (syncs w)))) eqn:H2.
      * apply scan_scanned; auto.
      * apply scan_failedSecond; auto.
  - apply scan_failedFirst; auto.
Qed.

(** X1.  Whatever the service does, [scanAndBuildUI] returns normally: no
    exception leaves its [try]/[catch].  It leaves no request pending and
    never writes to the clipboard. *)
Theorem X1_scan_returns (h : Host) (w : World) :
  fst (scanAndBuildUI h w) = Returned tt
  /\ queue (snd (scanAndBuildUI h w)) = []
  /\ clipboard (snd (scanAndBuildUI h w)) = clipboard w.
Proof.
  rewrite scan_afterScan. cbn [fst snd]. unfold afterScan.
  destruct (sync_resolves h (List.length (syncs w)));
    [destruct (List.length (headings (body_paragraphs h)) =? 0);
     [|destruct (sync_resolves h (S (List.length (syncs w))))]|];
    repeat split.
Qed.



Lemma directives_after_scan (h : Host) (w : World) :
  serviceAnswers h w ->
  directives (snd (scanAndBuildUI h w))
  = map (fun s => Some (resolved h s)) (stubs (headings (body_paragraphs h)))
  /\ statusMessage (snd (scanAndBuildUI h w))
     = (if List.length (headings (body_paragraphs h)) =? 0 then msgNoHeadings
        else if List.length (stubs (headings (body_paragraphs h))) =? 0
             then msgNoPrompts else []).
Proof.
  intros [H1 H2]. rewrite scan_afterScan. cbn [snd]. unfold afterScan.
  rewrite H1, H2.
  destruct (List.length (headings (body_paragraphs h)) =? 0) eqn:E0.
  - apply Nat.eqb_eq in E0.
    destruct (headings (body_paragraphs h)); [|discriminate]. split; reflexivity.
  - split; [apply directives_scanned|reflexivity].
Qed.



(** ** The copy action *)

Lemma copy_resolved (h : Host) (textToCopy buttonText : jsstring) (w : World) :
  textToCopy <> [] ->
  clipboard_resolves h textToCopy = true ->
  copyTextToClipboard h textToCopy buttonText w
  = (Returned tt,
     set_statusMessage (msgCopied buttonText)
       (set_clipboard (clipboard w ++ [textToCopy])
          (set_console
             (console w
              ++ [ConsoleLog (lit "Button clicked for: " ++ dquote ++ buttonText ++ dquote);
                  ConsoleLog (lit "Text to copy (length "
                              ++ ofNumber (JS.length textToCopy) ++ lit "): "
                              ++ dquote ++ textToCopy ++ dquote);
                  ConsoleLog (lit "Successfully copied to clipboard.")])
             w))).
Proof.
  intros Hne Hok. destruct textToCopy as [|c t]; [congruence|].
  destruct w. unfold copyTextToClipboard, bind, tryCatch, consoleWrite, setStatus,
    modify, writeText.
  cbn [JS.length List.length Nat.eqb]. rewrite Hok.
  unfold set_statusMessage, set_clipboard, set_console. cbn.
  rewrite <- !app_assoc. reflexivity.
Qed.

Lemma copy_rejected (h : Host) (textToCopy buttonText : jsstring) (w : World) :
  textToCopy <> [] ->
  clipboard_resolves h textToCopy = false ->
  copyTextToClipboard h textToCopy buttonText w
  = (Returned tt,
     set_statusMessage msgCopyError
       (set_console
          (console w
           ++ [ConsoleLog (lit "Button clicked for: " ++ dquote ++ buttonText ++ dquote);
               ConsoleLog (lit "Text to copy (length "
                           ++ ofNumber (JS.length textToCopy) ++ lit "): "
                           ++ dquote ++ textToCopy ++ dquote);
               ConsoleError (lit "Error copying to clipboard:") ClipboardRejected])
          w)).
Proof.
  intros Hne Hok. destruct textToCopy as [|c t]; [congruence|].
  destruct w. unfold copyTextToClipboard, bind, tryCatch, consoleWrite, setStatus,
    modify, writeText.
  cbn [JS.length List.length Nat.eqb]. rewrite Hok.
  unfold set_statusMessage, set_clipboard, set_console. cbn.
  rewrite <- !app_assoc. reflexivity.
Qed.

(** X4.  [copyTextToClipboard] always returns normally.  It writes to the
    clipboard at most once, the given text, and only when the text is not
    empty and the write resolves.  The status then says what happened:
    the warning for an empty text, "Copied ..." after the write, the error
    message when the write was rejected.  The container, the objects and
    the log of syncs are left alone. *)
Theorem X4_copy_effects (h : Host) (textToCopy buttonText : jsstring) (w : World) :
  fst (copyTextToClipboard h textToCopy buttonText w) = Returned tt
  /\ clipboard (snd (copyTextToClipboard h textToCopy buttonText w))
     = clipboard w
       ++ (if (JS.length textToCopy =? 0) then []
           else if clipboard_resolves h textToCopy then [textToCopy] else [])
  /\ statusMessage (snd (copyTextToClipboard h textToCopy buttonText w))
     = (if (JS.length textToCopy =? 0) then msgNothingToCopy
        else if clipboard_resolves h textToCopy then msgCopied buttonText
             else msgCopyError)
  /\ container (snd (copyTextToClipboard h textToCopy buttonText w)) = container w
  /\ heap (snd (copyTextToClipboard h textToCopy buttonText w)) = heap w
  /\ syncs (snd (copyTextToClipboard h textToCopy buttonText w)) = syncs w.
Proof.
  destruct textToCopy as [|c t].
  - rewrite copy_empty. destruct w. cbn. rewrite app_nil_r. repeat split.
  - destruct (clipboard_resolves h (c :: t)) eqn:Hok.
    + rewrite copy_resolved by (congruence || assumption).
      destruct w. cbn. repeat split.
    + rewrite copy_rejected by (congruence || assumption).
      destruct w. cbn. rewrite app_nil_r. repeat split.
Qed.

(** ** The elements of a finished scan and their click handlers *)

Lemma elements_items (h : Host) (ss : list Stub) :
  forall P Q,
    Forall2 (elementFor h (P ++ map (filled h) (promptsOf ss) ++ Q))
            ss (map elementOf (itemsOf ss (List.length P))).
Proof.
  induction ss as [|[t r|t] ss IH]; intros P Q; [constructor| |].
  - cbn [itemsOf map promptsOf flat_map promptOf app]. constructor.
    + exists (List.length P). split; [reflexivity|].
      rewrite nth_error_middle. reflexivity.
    + specialize (IH (P ++ [filled h {| PromptData.buttonText := t;
                                        PromptData.textToCopy := [];
                                        PromptData._range := r |}]) Q).
      rewrite length_app, Nat.add_1_r, <- app_assoc in IH. exact IH.
  - cbn [itemsOf map promptsOf flat_map promptOf app]. constructor.
    + reflexivity.
    + apply IH.
Qed.

Lemma scanned_elements (h : Host) (w : World) :
  Forall2 (elementFor h (heap (scanned h w)))
          (stubs (headings (body_paragraphs h))) (container (scanned h w)).
Proof.
  unfold scanned. cbn [heap container].
  pose proof (elements_items h (stubs (headings (body_paragraphs h))) (heap w) []) as H.
  rewrite app_nil_r in H. exact H.
Qed.

Lemma Forall2_nth_error {A B} (R : A -> B -> Prop) (l1 : list A) (l2 : list B) :
  Forall2 R l1 l2 ->
  forall j a, nth_error l1 j = Some a -> exists b, nth_error l2 j = Some b /\ R a b.
Proof.
  induction 1 as [|x y l1 l2 Hxy _ IH]; intros [|j] a Hj; simpl in Hj; try discriminate.
  - inversion Hj. subst. exists y. split; [reflexivity|exact Hxy].
  - exact (IH j a Hj).
Qed.

Lemma Forall2_In_r {A B} (R : A -> B -> Prop) (l1 : list A) (l2 : list B) :
  Forall2 R l1 l2 -> forall b, In b l2 -> exists a, In a l1 /\ R a b.
Proof.
  induction 1 as [|x y l1 l2 Hxy _ IH]; intros b Hb; [destruct Hb|].
  destruct Hb as [<-|Hb].
  - exists x. split; [left; reflexivity|exact Hxy].
  - destruct (IH b Hb) as [a [Ha HR]]. exists a. split; [right; exact Ha|exact HR].
Qed.

Lemma copy_returns (h : Host) (textToCopy buttonText : jsstring) (w : World) :
  fst (copyTextToClipboard h textToCopy buttonText w) = Returned tt.
Proof.
  destruct textToCopy as [|c t].
  - rewrite copy_empty. reflexivity.
  - destruct (clipboard_resolves h (c :: t)) eqn:Hok.
    + rewrite copy_resolved by (congruence || assumption). reflexivity.
    + rewrite copy_rejected by (congruence || assumption). reflexivity.
Qed.

(** X5.  After a scan, the button of a Button heading whose range holds
    text copies that text, trimmed, when it is clicked: the clipboard
    receives exactly this one text and the status names the button.  When
    the clipboard refuses the write, nothing is written and the status is
    the error message; the click returns normally either way. *)
Theorem X5_click_copies (h : Host) (w : World) (i : nat) (hd : Heading.t) :
  serviceAnswers h w ->
  nth_error (headings (body_paragraphs h)) i = Some hd ->
  marker hd = Button ->
  trim (range_text h (contentRange (headings (body_paragraphs h)) i hd)) <> [] ->
  let payload := trim (range_text h (contentRange (headings (body_paragraphs h)) i hd)) in
  let w' := snd (scanAndBuildUI h w) in
  let j := List.length (filter hasMarker (firstn i (headings (body_paragraphs h)))) in
  exists e,
    nth_error (container w') j = Some e
    /\ fst (click h e w') = Returned tt
    /\ clipboard (snd (click h e w'))
       = clipboard w ++ (if clipboard_resolves h payload then [payload] else [])
    /\ statusMessage (snd (click h e w'))
       = (if clipboard_resolves h payload then msgCopied (displayText hd)
          else msgCopyError).
Proof.
  intros [H1 H2] Hn Hm Hne. cbv zeta.
  assert (Hhs : headings (body_paragraphs h) <> []).
  { intros E. rewrite E in Hn. destruct i; discriminate. }
  rewrite (scan_scanned h w H1 H2 Hhs). cbn [snd].
  assert (Hstub : stubOf (headings (body_paragraphs h)) (i, hd)
                  = [ButtonStub (displayText hd)
                                (contentRange (headings (body_paragraphs h)) i hd)]).
  { unfold stubOf. cbn [fst snd]. rewrite Hm. reflexivity. }
  destruct (Forall2_nth_error _ _ _ (scanned_elements h w) _ _
              (@nth_stub _ i hd _ Hn Hstub)) as [e [He [ref [Heq Href]]]].
  exists e. split; [exact He|]. subst e.
  cbn [click]. unfold onclick, bind, deref. cbn [UIItem.data]. rewrite Href.
  cbn [PromptData.textToCopy PromptData.buttonText].
  destruct (clipboard_resolves h _) eqn:Hok.
  - rewrite copy_resolved by assumption. destruct w. repeat split.
  - rewrite copy_rejected by assumption. destruct w. cbn. rewrite app_nil_r.
    repeat split.
Qed.

Lemma X5_click_copies_witness :
  exists e,
    nth_error (container (snd (scanAndBuildUI (documentHost exampleDocument) initial))) 2
    = Some e
    /\ clipboard (snd (click (documentHost exampleDocument) e
                         (snd (scanAndBuildUI (documentHost exampleDocument) initial))))
       = [lit "body text B"].
Proof.
  destruct (X5_click_copies (documentHost exampleDocument) initial 3
              {| Heading.paragraph := 4; Heading.text := lit "*Summarize";
                 Heading.index := 4 |}
              (conj eq_refl eq_refl) eq_refl eq_refl)
    as [e [H1 [_ [H2 _]]]].
  - vm_compute. discriminate.
  - exists e. split; [exact H1 | exact H2].
Defined.

(** X6.  Every element a scan leaves in the container can be clicked
    safely, whatever the service and the clipboard did: a button's item
    always refers to an existing object, whose button text is the text
    shown on the button, so the handler never reads a property of
    [undefined] and no exception leaves it. *)
Theorem X6_click_safe (h : Host) (w : World) (e : Element) :
  In e (container (snd (scanAndBuildUI h w))) ->
  fst (click h e (snd (scanAndBuildUI h w))) = Returned tt
  /\ match e with
     | H3 c _ => c = lit "ms-font-l"
     | ButtonElement c t item =>
         c = lit "ms-Button"
         /\ UIItem.text item = t
         /\ exists r d, UIItem.data item = Some r
                        /\ nth_error (heap (snd (scanAndBuildUI h w))) r = Some d
                        /\ PromptData.buttonText d = t
     end.
Proof.
  rewrite scan_afterScan. cbn [snd]. unfold afterScan.
  destruct (sync_resolves h (List.length (syncs w)));
    [destruct (List.length (headings (body_paragraphs h)) =? 0);
     [|destruct (sync_resolves h (S (List.length (syncs w))))]|];
    try (intros []).
  intros Hin.
  destruct (Forall2_In_r _ _ _ (scanned_elements h w) e Hin) as [s [_ Hs]].
  destruct s as [t r|t]; cbn [elementFor] in Hs.
  - destruct Hs as [ref [-> Href]]. split.
    + cbn [click]. unfold onclick, bind, deref. cbn [UIItem.data]. rewrite Href.
      apply copy_returns.
    + split; [reflexivity|]. split; [reflexivity|].
      eexists _, _. split; [reflexivity|]. split; [exact Href|reflexivity].
  - subst e. split; reflexivity.
Qed.

Lemma X6_click_safe_witness :
  fst (click (lockedClipboardHost exampleDocument)
         (ButtonElement (lit "ms-Button") (lit "Explain")
            {| UIItem.type := button; UIItem.text := lit "Explain"; UIItem.data := Some 0 |})
         (snd (scanAndBuildUI (lockedClipboardHost exampleDocument) initial)))
  = Returned tt.
Proof.
  apply (X6_click_safe (lockedClipboardHost exampleDocument) initial).
  left. reflexivity.
Defined.

(** ** Headings, ranges and elements against the document *)

Lemma filter_numbered_length {A} (f : A -> bool) (l : list A) :
  forall i,
    List.length (filter (fun ip => f (snd ip)) (numbered i l)) = List.length (filter f l).
Proof.
  induction l as [|x l IH]; intros i; [reflexivity|].
  rewrite numbered_cons. cbn [filter snd]. destruct (f x); cbn [List.length]; rewrite IH;
    reflexivity.
Qed.


(** X7.  A paragraph is in the heading list exactly when its style starts
    with [Heading]; its record carries the paragraph's own position and
    text.  So the list has as many entries as the document has
    heading-styled paragraphs, and no other paragraph gets in. *)
Theorem X7_heading_membership (ps : list Paragraph.t) (hd : Heading.t) :
  (In hd (findHeadings ps 0 []) <->
   exists p, nth_error ps (Heading.index hd) = Some p
             /\ startsWith (Paragraph.styleBuiltIn p) (lit "Heading") = true
             /\ Heading.text hd = Paragraph.text p
             /\ Heading.paragraph hd = Heading.index hd)
  /\ List.length (findHeadings ps 0 []) = List.length (filter isHeading ps).
Proof.
  rewrite findHeadings_headings. split.
  - rewrite heading_paragraph. split.
    + intros [p [Hn [Hh He]]]. exists p. rewrite He. cbn. auto.
    + intros [p [Hn [Hh [Ht Hp]]]]. exists p. rewrite Hp.
      split; [exact Hn|]. split; [exact Hh|].
      destruct hd as [a t b]. cbn in *. subst. reflexivity.
  - unfold headings. rewrite length_map. apply filter_numbered_length.
Qed.



Lemma sorted_adjacent (l : list nat) :
  StronglySorted lt l ->
  forall i a b, nth_error l i = Some a -> nth_error l (S i) = Some b -> a < b.
Proof.
  induction 1 as [|x l Hs IH Hall]; intros [|i] a b Ha Hb; simpl in Ha, Hb;
    try discriminate.
  - inversion Ha. subst. change (nth_error l 0 = Some b) in Hb. apply nth_error_In in Hb.
    rewrite Forall_forall in Hall. exact (Hall b Hb).
  - exact (IH i a b Ha Hb).
Qed.

Lemma heading_in_document (ps : list Paragraph.t) (i : nat) (hd : Heading.t) :
  nth_error (headings ps) i = Some hd ->
  Heading.paragraph hd < List.length ps /\ Heading.index hd = Heading.paragraph hd.
Proof.
  intros Hn. apply nth_error_In in Hn. apply heading_paragraph in Hn.
  destruct Hn as [p [Hp [_ He]]]. split.
  - apply nth_error_Some. congruence.
  - rewrite He. reflexivity.
Qed.

(** X9.  Every request of the second batch loads a well-formed range: it
    starts at the end of a paragraph of the document and ends either at
    the start of a later paragraph of the document or at the end of the
    body.  The end of a range never comes before its start. *)
Theorem X9_ranges_well_formed (h : Host) (w : World) (batch : list Request) (q : Request) :
  nth_error (syncsOfScan h w) 1 = Some batch ->
  In q batch ->
  exists a,
    a < List.length (body_paragraphs h)
    /\ (q = LoadText (ExpandTo (ParagraphRange a REnd) (BodyRange REnd))
        \/ exists b, a < b /\ b < List.length (body_paragraphs h)
                     /\ q = LoadText (ExpandTo (ParagraphRange a REnd)
                                               (ParagraphRange b RStart))).
Proof.
  rewrite syncsOfScan_cases.
  destruct (sync_resolves h (List.length (syncs w))
            && negb (List.length (headings (body_paragraphs h)) =? 0));
    [|discriminate].
  cbn [nth_error]. intros Hb Hq. inversion Hb. subst batch. clear Hb.
  apply in_map_iff in Hq. destruct Hq as [r [<- Hr]].
  unfold stubs in Hr. rewrite rangesOf_stubsFrom in Hr.
  apply in_flat_map in Hr. destruct Hr as [[i hd] [Hin Hr]]. cbn [fst snd] in Hr.
  destruct (isButton hd); [|destruct Hr]. destruct Hr as [<-|[]].
  apply in_numbered in Hin. destruct Hin as [_ Hn]. rewrite Nat.sub_0_r in Hn.
  destruct (heading_in_document _ _ _ Hn) as [Hlt Hidx].
  exists (Heading.paragraph hd). split; [exact Hlt|].
  unfold contentRange.
  destruct (nth_error (headings (body_paragraphs h)) (S i)) as [next|] eqn:Hnext.
  - right. exists (Heading.paragraph next).
    destruct (heading_in_document _ _ _ Hnext) as [Hlt' Hidx'].
    split; [|split; [exact Hlt'|reflexivity]].
    rewrite <- Hidx, <- Hidx'.
    apply (sorted_adjacent _ (headings_sorted (body_paragraphs h)) i);
      rewrite nth_error_map; [rewrite Hn|rewrite Hnext]; reflexivity.
  - left. reflexivity.
Qed.

Lemma X9_ranges_well_formed_witness :
  exists a,
    a < List.length exampleDocument
    /\ (LoadText (ExpandTo (ParagraphRange 1 REnd) (ParagraphRange 3 RStart))
        = LoadText (ExpandTo (ParagraphRange a REnd) (BodyRange REnd))
        \/ exists b, a < b /\ b < List.length exampleDocument
                     /\ LoadText (ExpandTo (ParagraphRange 1 REnd) (ParagraphRange 3 RStart))
                        = LoadText (ExpandTo (ParagraphRange a REnd)
                                             (ParagraphRange b RStart))).
Proof.
  apply (X9_ranges_well_formed (documentHost exampleDocument) initial
           [LoadText (ExpandTo (ParagraphRange 1 REnd) (ParagraphRange 3 RStart));
            LoadText (ExpandTo (ParagraphRange 4 REnd) (BodyRange REnd))]).
  - reflexivity.
  - left. reflexivity.
Defined.

(** ** The start of the task pane and the scan button *)

Lemma clicks_unbound (h : Host) (n : nat) (p : Pane) :
  scan_button_onclick p = false -> clicks h n p = p.
Proof.
  intros H. induction n as [|n IH]; [reflexivity|].
  cbn [clicks]. unfold clickScanButton. rewrite H. exact IH.
Qed.

(** X10.  Outside Word the task pane stays inert: [Office.onReady]'s
    callback neither scans nor sets the handler of the scan button, so
    however often the button is clicked, nothing is sent to the service
    and the page does not change. *)
Theorem X10_inert_outside_word
        (h : Host) (host : option Office.HostType) (p : Pane) (n : nat) :
  host <> Some Office.Word ->
  scan_button_onclick p = false ->
  clicks h n (onReady h host p) = p.
Proof.
  intros Hhost Hp.
  assert (E : onReady h host p = p).
  { destruct host as [[]|]; try reflexivity. congruence. }
  rewrite E. apply clicks_unbound. exact Hp.
Qed.

Lemma X10_inert_outside_word_witness :
  clicks (documentHost exampleDocument) 3
    (onReady (documentHost exampleDocument) (Some Office.Excel)
       {| world := initial; scan_button_onclick := false |})
  = {| world := initial; scan_button_onclick := false |}.
Proof.
  apply (X10_inert_outside_word (documentHost exampleDocument) (Some Office.Excel)
           {| world := initial; scan_button_onclick := false |} 3).
  - discriminate.
  - reflexivity.
Defined.

Lemma scan_syncs_length (h : Host) (w : World) :
  sync_resolves h (List.length (syncs w)) = true ->
  List.length (syncs (snd (scanAndBuildUI h w)))
  = List.length (syncs w)
    + (if List.length (headings (body_paragraphs h)) =? 0 then 1 else 2).
Proof.
  intros H1. rewrite scan_afterScan. cbn [snd]. unfold afterScan. rewrite H1.
  destruct (List.length (headings (body_paragraphs h)) =? 0);
    [|destruct (sync_resolves h (S (List.length (syncs w))))];
    cbn [syncs withoutHeadings scanned failedSecond]; rewrite length_app; reflexivity.
Qed.

Lemma clicks_S (h : Host) (n : nat) (p : Pane) :
  clicks h (S n) p = clicks h n (clickScanButton h p).
Proof. reflexivity. Qed.

Lemma clickScanButton_bound (h : Host) (w : World) :
  clickScanButton h {| world := w; scan_button_onclick := true |}
  = {| world := snd (scanAndBuildUI h w); scan_button_onclick := true |}.
Proof. reflexivity. Qed.

Lemma clicks_after_scan (h : Host) :
  (forall k, sync_resolves h k = true) ->
  forall n w,
    scan_button_onclick
      (clicks h n {| world := snd (scanAndBuildUI h w); scan_button_onclick := true |})
    = true
    /\ directives
         (world (clicks h n {| world := snd (scanAndBuildUI h w);
                               scan_button_onclick := true |}))
       = map (fun s => Some (resolved h s)) (stubs (headings (body_paragraphs h)))
    /\ List.length
         (syncs (world (clicks h n {| world := snd (scanAndBuildUI h w);
                                      scan_button_onclick := true |})))
       = List.length (syncs w)
         + S n * (if List.length (headings (body_paragraphs h)) =? 0 then 1 else 2).
Proof.
  intros Hall. induction n as [|n IH]; intros w.
  - destruct (directives_after_scan h w (conj (Hall _) (Hall _))) as [Hd _].
    pose proof (scan_syncs_length h w (Hall _)) as Hl.
    revert Hd Hl. generalize (snd (scanAndBuildUI h w)). intros w1 Hd Hl.
    cbn [clicks world scan_button_onclick].
    split; [reflexivity|]. split; [exact Hd|].
    rewrite Hl, Nat.mul_1_l. reflexivity.
  - rewrite clicks_S, clickScanButton_bound.
    destruct (IH (snd (scanAndBuildUI h w))) as [Hb [Hd Hl]].
    split; [exact Hb|]. split; [exact Hd|].
    rewrite Hl. rewrite (scan_syncs_length h w (Hall _)).
    generalize (List.length (syncs w)).
    generalize (if List.length (headings (body_paragraphs h)) =? 0 then 1 else 2).
    intros c m. lia.
Qed.

(** X11.  In Word, [Office.onReady]'s callback sets the handler of the scan
    button and scans at once.  With a service that answers, the pane then
    shows the directives of the document, and still shows the same ones
    after any number of clicks on the scan button; each scan costs one
    sync for a document without headings and two otherwise, whatever the
    number of headings. *)
Theorem X11_scans_in_word (h : Host) (p : Pane) (n : nat) :
  (forall k, sync_resolves h k = true) ->
  scan_button_onclick (clicks h n (onReady h (Some Office.Word) p)) = true
  /\ directives (world (clicks h n (onReady h (Some Office.Word) p)))
     = map (fun s => Some (resolved h s)) (stubs (headings (body_paragraphs h)))
  /\ List.length (syncs (world (clicks h n (onReady h (Some Office.Word) p))))
     = List.length (syncs (world p))
       + S n * (if List.length (headings (body_paragraphs h)) =? 0 then 1 else 2).
Proof.
  intros Hall.
  change (onReady h (Some Office.Word) p)
    with {| world := snd (scanAndBuildUI h (world p)); scan_button_onclick := true |}.
  exact (clicks_after_scan h Hall n (world p)).
Qed.

Lemma X11_scans_in_word_witness :
  List.length
    (syncs (world (clicks (documentHost exampleDocument) 2
                     (onReady (documentHost exampleDocument) (Some Office.Word)
                        {| world := initial; scan_button_onclick := false |}))))
  = 6.
Proof.
  destruct (X11_scans_in_word (documentHost exampleDocument)
              {| world := initial; scan_button_onclick := false |} 2
              (fun _ => eq_refl)) as [_ [_ H]].
  rewrite H. reflexivity.
Defined.
